(** * Vibe Slides command-line client: polling, export and download

    A shallow embedding of [skills/vibe-slides/scripts/vibe-slides.mjs]:
    the two polling loops ([pollDeckStatus], [pollExportStatus]), the
    redirect-following [download], the request helpers and [main].

    Modelling conventions.
    - The script is one sequential chain of [await]s.  It is embedded in a
      state-and-exit monad over a [world]: the wall clock read by
      [Date.now()], the files the script touches, and the ordered trace of
      everything the script does that is visible outside (log lines, lines
      on standard output, API requests, timers).
    - The remote side is an oracle [env]: how the k-th API request
      settles, if it does, and how long it takes, the real duration of the
      k-th timer, the answer of the web to a download [GET].  A promise
      that never settles is the outcome [Stuck].
    - JS numbers are finite rationals ([Q]); [Date.now()] is an integer
      number of milliseconds.  The products of the script ([x * 1000] for
      a timer, [pollExport * 0.3]) are binary64 products, [mul64], and the
      literal [0.3] is the binary64 number of that name.  The deadline
      [Date.now() + timeout * 1000] is the exact sum, which is what
      binary64 gives for a time-out of a whole number of milliseconds.
      [NaN], the infinities and what lies outside the normal range of
      binary64 are outside the model.
    - A JSON body is the record of the properties the script reads, each
      one either undefined ([None]) or of the type the API documents.
    - Log lines are kept structured: one constructor per template of the
      source, carrying the interpolated values (the timestamp prefix of
      [log] is left out).
    - [while] loops and the recursion of [download] take fuel; running
      out of fuel is the distinct outcome [Diverge], so that termination
      is a theorem and not an assumption.
    - The script is taken from [main] on: the command line is already in
      [config], and [VIBE_API_KEY] is set (without it the script exits
      before [main]). *)

From Stdlib Require Import ZArith QArith Qminmax String List Bool Lia Lqa.
Import ListNotations.

Local Open Scope Z_scope.
Local Open Scope string_scope.

(** ** JS helpers *)

(** [a < b] on numbers. *)
Definition Qltb (a b : Q) : bool := negb (Qle_bool b a).

(** Truthiness of a possibly-undefined string: [undefined] and the empty
    string are falsy. *)
Definition truthy (o : option string) : bool :=
  match o with
  | Some s => negb (s =? "")
  | None => false
  end.

(** [v === s] for a possibly-undefined string [v]. *)
Definition strict_eq (v : option string) (s : string) : bool :=
  match v with
  | Some t => t =? s
  | None => false
  end.

(** [e || "unknown"], as both pollers use it. *)
Definition or_unknown (e : option string) : string :=
  match e with
  | Some s => if s =? "" then "unknown" else s
  | None => "unknown"
  end.

(** [p || 0] on a possibly-undefined number. *)
Definition or_zero (p : option Q) : Q :=
  match p with
  | Some q => if Qeq_bool q 0 then 0%Q else q
  | None => 0%Q
  end.

(** A destructuring default: [{ x = 0 } = obj]. *)
Definition default0 (x : option Z) : Z :=
  match x with
  | Some n => n
  | None => 0
  end.

(** Interpolation of a possibly-undefined string in a template. *)
Definition show (o : option string) : string :=
  match o with
  | Some s => s
  | None => "undefined"
  end.

(** ** Numbers

    The [*] of the script is the product of binary64: the exact product
    rounded to 53 significant bits, to nearest, ties to even. *)

(** [n / d], for [n] and [d] positive, rounded to 53 significant bits. *)
Definition round53_pos (n d : positive) : Q :=
  let k := Z.log2 (Zpos n) - Z.log2 (Zpos d) in
  let at_least := if (0 <=? k)%Z then (Zpos d * 2 ^ k <=? Zpos n)%Z
                  else (Zpos d <=? Zpos n * 2 ^ (- k))%Z in
  let e := (if at_least then k else k - 1) - 52 in      (* 2^52 <= n/d/2^e < 2^53 *)
  let a := if (0 <=? e)%Z then Zpos n else Zpos n * 2 ^ (- e) in
  let b := if (0 <=? e)%Z then Zpos d * 2 ^ e else Zpos d in
  let m := a / b in
  let r := a mod b in
  let m' := if (2 * r <? b)%Z then m
            else if (b <? 2 * r)%Z then m + 1
            else if Z.even m then m else m + 1 in
  if (0 <=? e)%Z then inject_Z (m' * 2 ^ e) else Qmake m' (Z.to_pos (2 ^ (- e))).

Definition round53 (q : Q) : Q :=
  match Qnum q with
  | Z0 => 0%Q
  | Zpos n => Qred (round53_pos n (Qden q))
  | Zneg n => Qred (- round53_pos n (Qden q))
  end.

(** [x * y] on numbers. *)
Definition mul64 (x y : Q) : Q := round53 (x * y).

(** The literal [0.3]: the binary64 number nearest to three tenths. *)
Definition lit_0_3 : Q := round53 0.3.

(** ** Data *)

(** The properties of [res.data] that the script reads. *)
Module Data.
Record t := mk {
  id : option string;
  name : option string;
  status : option string;
  slides_count : option Z;
  slides_complete : option Z;
  error : option string;
  export_id : option string;
  progress : option Q;
  download_url : option string
}.

(** An object with none of these properties; also stands for a body that
    is a string, a number, a boolean or an array, on which each of these
    property reads gives [undefined]. *)
Definition empty : t := mk None None None None None None None None None.
End Data.

(** What [request] resolves to.  [data] is [None] when the body is the
    JSON value [null], on which a property read throws. *)
Module Res.
Record t := mk {
  status : Z;
  retry_after : option string;     (* res.headers["retry-after"] *)
  data : option Data.t
}.
End Res.

(** The body of a [POST]. *)
Inductive payload :=
| DeckPayload (prompt : string) (name : option string)
| ExportPayload (format : string) (upscale : bool).

(** The lines written by [log], one constructor per template. *)
Inductive msg :=
| Creating_deck
| Error_creating_deck (status : Z) (data : option Data.t)
| Deck_created (id name status : option string)
| Waiting_for_deck_generation
| Error_polling_deck (status : Z)
| Deck_generation_failed (error : string)
| Deck_complete (slides_count : Z)
| Generation_done_rendering (slides_complete slides_count : Z)
| Deck_status (status : option string) (slides_complete slides_count : Z) (wait : Q)
| Timeout_waiting_for_deck_generation
| Starting_export (fmt : string)
| Error_starting_export (status : Z) (data : option Data.t)
| Export_started (export_id : option string)
| Waiting_for_export
| Export_poll_error_retrying (status : Z)
| Export_complete
| Export_failed (error : string)
| Export_progress (progress : Q)
| Timeout_waiting_for_export
| No_download_url_in_export_response
| Downloading (ext : string)
| Saved (outPath : string) (bytes : Z).

(** What a rejected promise or a [throw] carries. *)
Inductive exn :=
| TypeError
| Request_error                        (* req.on("error", reject) *)
| Download_failed_HTTP (statusCode : Z)
| Stream_error.                        (* the "error" event of a download *)

(** The final JSON summary: the properties of the object literal, in
    order; [JSON.stringify] drops those whose value is undefined. *)
Inductive jvalue :=
| JStr (s : string)
| JNum (n : Z).

Definition json := list (string * jvalue).

Definition prop {A} (k : string) (f : A -> jvalue) (v : option A) : json :=
  match v with
  | Some a => [(k, f a)]
  | None => []
  end.

Definition has_field (k : string) (j : json) : bool :=
  existsb (fun kv => fst kv =? k) j.

(** A line of standard output or of [console.error]. *)
Inductive line :=
| FILE_line (outPath : string)           (* FILE: <path> *)
| JSON_line (j : json)
| Usage_line (n : nat)
| Error_line (e : exn).

(** Everything the script does that is visible from outside, in order. *)
Inductive event :=
| Log (m : msg)                                          (* log(...) *)
| ConsoleLog (l : line)                                  (* console.log *)
| ConsoleError (l : line)                                (* console.error *)
| Request (method endpoint : string) (body : option payload)
| SetTimeout (ms : Q)                                    (* setTimeout(r, ms) *)
| Get (url : string)                                     (* mod.get(url, ...) *)
| CreateWriteStream (dest : string)
| UnlinkSync (dest : string)
| MkdirSync (dir : string).

(** ** The world and the environment *)

Record world := mkWorld {
  clock : Z;                          (* Date.now(), in ms *)
  trace : list event;                 (* oldest first *)
  requests : nat;                     (* API requests issued so far *)
  timers : nat;                       (* timers awaited so far *)
  files : string -> option string     (* path -> content *)
}.

(** One answer of the web to a download [GET]. *)
Inductive hop :=
| Bad_url                                   (* new URL(url) throws *)
| Net_error                                 (* the "error" event, before any response *)
| Response (statusCode : Z) (location : option string) (body : string)
                                            (* a response, received whole *)
| Broken (partial : string)
    (* a 200 whose body breaks off with the "error" event, [partial]
       having been received *)
| Unfinished (partial : string).
    (* a 200 whose body breaks off, or (with nothing received) no
       response at all, without any event the script listens to *)

(** How a request settles, if it does: [request] resolves on the "end" of
    the response and rejects on the "error" of the request; it has no
    listener for anything else (the [timeout] option sets none), so the
    promise of a request to a silent server, or whose response breaks
    off, may never settle. *)
Inductive settlement :=
| Resolves (res : Res.t)
| Rejects
| Never_settles.

Record env := mkEnv {
  settles : nat -> settlement;        (* how the k-th API request settles *)
  request_ms : nat -> Z;              (* time the k-th API request takes *)
  timer_ms : nat -> Z;                (* time the k-th timer really takes *)
  fetch : string -> hop;              (* the web, for [download] *)
  Number : string -> Q;               (* JS Number(...) on a header text *)
  slice : string -> nat -> nat -> string;   (* JS s.slice(start, end) *)
  stdin : string;   (* standard input, drained and trimmed *)
  path_resolve : string -> string -> string;
  path_dirname : string -> string
}.

(** The reply to the k-th API request, when the request resolves; [None]
    when it rejects or never settles. *)
Definition server (E : env) (k : nat) : option Res.t :=
  match settles E k with
  | Resolves res => Some res
  | Rejects | Never_settles => None
  end.

(** The values read from the command line at module level. *)
Record config := mkConfig {
  args : list string;                 (* what is left: the prompt words *)
  useStdin : bool;
  noExport : bool;
  upscale : bool;
  deckName : option string;
  format : string;
  outDir : string;
  filename : option string;
  pollDeck : Q;
  pollExport : Q;
  timeout : Q
}.

(** ** The monad *)

Inductive result (A : Type) :=
| Ret (a : A)
| Exit (code : Z)              (* process.exit(code) *)
| Throw (e : exn)              (* an exception, or a rejected promise *)
| Diverge                      (* out of fuel *)
| Stuck.                       (* awaits a promise that never settles *)
Arguments Ret {A} a.
Arguments Exit {A} code.
Arguments Throw {A} e.
Arguments Diverge {A}.
Arguments Stuck {A}.

Definition M (A : Type) : Type := world -> result A * world.

Definition ret {A} (a : A) : M A := fun w => (Ret a, w).

Definition bind {A B} (m : M A) (k : A -> M B) : M B :=
  fun w =>
    match m w with
    | (Ret a, w') => k a w'
    | (Exit c, w') => (Exit c, w')
    | (Throw e, w') => (Throw e, w')
    | (Diverge, w') => (Diverge, w')
    | (Stuck, w') => (Stuck, w')
    end.

Notation "x <- m ;; k" := (bind m (fun x => k))
  (at level 61, m at next level, right associativity).
Notation "m ;; k" := (bind m (fun _ => k))
  (at level 61, right associativity).

Definition process_exit {A} (code : Z) : M A := fun w => (Exit code, w).
Definition throw {A} (e : exn) : M A := fun w => (Throw e, w).
Definition diverge {A} : M A := fun w => (Diverge, w).
Definition stuck {A} : M A := fun w => (Stuck, w).

(** The world once [e] has happened. *)
Definition add_event (e : event) (w : world) : world :=
  mkWorld (clock w) (trace w ++ [e]) (requests w) (timers w) (files w).

Definition emit (e : event) : M unit :=
  fun w => (Ret tt, add_event e w).

Definition log (m : msg) : M unit := emit (Log m).

Definition Date_now : M Z := fun w => (Ret (clock w), w).

(** A property read on [res.data]: throws on [null]. *)
Definition read (d : option Data.t) : M Data.t :=
  match d with
  | Some o => ret o
  | None => throw TypeError
  end.

(** ** Loops *)

(** What one pass through a loop body ends in: a [return] out of the
    enclosing function, or the next test of the loop condition (the end of
    the body, or [continue]) with the loop's mutable variables. *)
Inductive step (A S : Type) :=
| Return (a : A)
| Continue (s : S).
Arguments Return {A S} a.
Arguments Continue {A S} s.

(** [while (Date.now() < deadline) { body }]: [Some a] when the body
    returned [a], [None] when the loop ran to its end. *)
Fixpoint while_before {A S} (fuel : nat) (deadline : Q)
    (body : S -> M (step A S)) (s : S) : M (option A) :=
  match fuel with
  | O => diverge
  | Datatypes.S fuel' =>
      now <- Date_now ;;
      if Qltb (inject_Z now) deadline then
        r <- body s ;;
        match r with
        | Return a => ret (Some a)
        | Continue s' => while_before fuel' deadline body s'
        end
      else ret None
  end.

Section Script.

Variable E : env.
Variable cfg : config.

(** ** Helpers *)

(** The world once the next API request has been answered. *)
Definition after_request (method endpoint : string) (body : option payload)
    (w : world) : world :=
  mkWorld (clock w + request_ms E (requests w))
          (trace w ++ [Request method endpoint body])
          (S (requests w)) (timers w) (files w).

(** The world once the next timer has fired. *)
Definition after_sleep (ms : Q) (w : world) : world :=
  mkWorld (clock w + timer_ms E (timers w))
          (trace w ++ [SetTimeout ms])
          (requests w) (S (timers w)) (files w).

(** [await request(method, endpoint, body)]: the k-th request settles as
    the environment has it, after the time that request takes: resolved
    with the reply, rejected on the "error" event of the request, or
    never. *)
Definition request (method endpoint : string) (body : option payload) : M Res.t :=
  fun w =>
    match settles E (requests w) with
    | Resolves res => (Ret res, after_request method endpoint body w)
    | Rejects => (Throw Request_error, after_request method endpoint body w)
    | Never_settles => (Stuck, after_request method endpoint body w)
    end.

(** [await new Promise((r) => setTimeout(r, ms))]. *)
Definition sleep (ms : Q) : M unit :=
  fun w => (Ret tt, after_sleep ms w).

(** ** pollDeckStatus *)

(** [Number(res.headers["retry-after"] || pollDeck)]. *)
Definition deck_wait (res : Res.t) : Q :=
  match Res.retry_after res with
  | Some h => if truthy (Some h) then Number E h else pollDeck cfg
  | None => pollDeck cfg
  end.

(** The body of the [while] of [pollDeckStatus] (lines 154-177). *)
Definition pollDeck_body (deckId : option string) (_ : unit) : M (step Data.t unit) :=
  res <- request "GET" ("/v1/decks/" ++ show deckId) None ;;
  if negb (Res.status res =? 200)%Z then
    log (Error_polling_deck (Res.status res)) ;;
    process_exit 1
  else
    deck <- read (Res.data res) ;;
    let status := Data.status deck in
    let slides_count := default0 (Data.slides_count deck) in
    let slides_complete := default0 (Data.slides_complete deck) in
    if strict_eq status "error" then
      log (Deck_generation_failed (or_unknown (Data.error deck))) ;;
      process_exit 1
    else if strict_eq status "complete" && (slides_count >? 0)
            && (slides_complete >=? slides_count) then
      log (Deck_complete slides_count) ;;
      ret (Return deck)
    else
      let wait := deck_wait res in
      (if strict_eq status "complete" then
         log (Generation_done_rendering slides_complete slides_count)
       else
         log (Deck_status status slides_complete slides_count wait)) ;;
      sleep (mul64 wait 1000) ;;
      ret (Continue tt).

Definition pollDeckStatus (fuel : nat) (deckId : option string) : M Data.t :=
  log Waiting_for_deck_generation ;;
  now <- Date_now ;;
  let deadline := (inject_Z now + timeout cfg * 1000)%Q in
  r <- while_before fuel deadline (pollDeck_body deckId) tt ;;
  match r with
  | Some deck => ret deck
  | None => log Timeout_waiting_for_deck_generation ;; process_exit 1
  end.

(** ** pollExportStatus *)

(** Line 217: the interval after a progress report. *)
Definition next_interval (progress : Q) : Q :=
  if Qle_bool 50 progress then Qmax lit_0_3 (mul64 (pollExport cfg) lit_0_3)
  else pollExport cfg.

(** The body of the [while] of [pollExportStatus] (lines 199-218); the
    loop's mutable variable is [interval]. *)
Definition pollExport_body (deckId exportId : option string) (interval : Q)
    : M (step Data.t Q) :=
  res <- request "GET"
           ("/v1/decks/" ++ show deckId ++ "/export?export_id=" ++ show exportId)
           None ;;
  if negb (Res.status res =? 200)%Z then
    log (Export_poll_error_retrying (Res.status res)) ;;
    sleep (mul64 interval 1000) ;;
    ret (Continue interval)
  else
    exp <- read (Res.data res) ;;
    if strict_eq (Data.status exp) "complete" || truthy (Data.download_url exp) then
      log Export_complete ;;
      ret (Return exp)
    else if strict_eq (Data.status exp) "error" then
      log (Export_failed (or_unknown (Data.error exp))) ;;
      process_exit 1
    else
      let progress := or_zero (Data.progress exp) in
      log (Export_progress progress) ;;
      let interval := next_interval progress in
      sleep (mul64 interval 1000) ;;
      ret (Continue interval).

Definition pollExportStatus (fuel : nat) (deckId exportId : option string) : M Data.t :=
  log Waiting_for_export ;;
  now <- Date_now ;;
  let deadline := (inject_Z now + timeout cfg * 1000)%Q in
  r <- while_before fuel deadline (pollExport_body deckId exportId) (pollExport cfg) ;;
  match r with
  | Some exp => ret exp
  | None => log Timeout_waiting_for_export ;; process_exit 1
  end.

(** ** download *)

Definition set_file (dest : string) (content : option string) (w : world) : world :=
  mkWorld (clock w) (trace w) (requests w) (timers w)
          (fun p => if p =? dest then content else files w p).

(** [fs.createWriteStream(dest)]: the file exists, empty, from here on. *)
Definition createWriteStream (dest : string) : M unit :=
  emit (CreateWriteStream dest) ;;
  fun w => (Ret tt, set_file dest (Some "") w).

(** [fs.unlinkSync(dest)]. *)
Definition unlinkSync (dest : string) : M unit :=
  emit (UnlinkSync dest) ;;
  fun w => (Ret tt, set_file dest None w).

(** [res.pipe(file)], for what of the response gets into the file. *)
Definition pipe (dest body : string) : M unit :=
  fun w => (Ret tt, set_file dest (Some body) w).

(** [download(url, dest)] (lines 103-123), awaited: the promise resolved
    is [Ret tt], the promise rejected with [e] is [Throw e], the promise
    that never settles is [Stuck].  The promise resolves on the "finish"
    of the file, that is once a 200 has been received whole; it rejects on
    the "error" event of the request.  The clock is left alone: the
    script never reads it once the export poll has returned. *)
Fixpoint download (fuel : nat) (url dest : string) : M unit :=
  match fuel with
  | O => diverge
  | S fuel' =>
      match fetch E url with
      | Bad_url => throw TypeError
      | Net_error =>
          createWriteStream dest ;;
          emit (Get url) ;;
          throw Stream_error
      | Response statusCode location body =>
          createWriteStream dest ;;
          emit (Get url) ;;
          if (statusCode >=? 300)%Z && (statusCode <? 400)%Z && truthy location then
            unlinkSync dest ;;
            download fuel' (show location) dest
          else if negb (statusCode =? 200)%Z then
            throw (Download_failed_HTTP statusCode)
          else
            pipe dest body ;;
            ret tt
      | Broken partial =>
          createWriteStream dest ;;
          emit (Get url) ;;
          pipe dest partial ;;
          throw Stream_error
      | Unfinished partial =>
          createWriteStream dest ;;
          emit (Get url) ;;
          pipe dest partial ;;
          stuck
      end
  end.

(** [fs.statSync(p).size]. *)
Definition statSync_size (p : string) : M Z :=
  fun w =>
    match files w p with
    | Some content => (Ret (Z.of_nat (String.length content)), w)
    | None => (Throw Stream_error, w)
    end.

(** ** createDeck, startExport *)

Definition createDeck (prompt : string) (name : option string) : M Data.t :=
  log Creating_deck ;;
  let payload := DeckPayload prompt (if truthy name then name else None) in
  res <- request "POST" "/v1/decks" (Some payload) ;;
  if negb (Res.status res =? 200)%Z then
    log (Error_creating_deck (Res.status res) (Res.data res)) ;;
    process_exit 1
  else
    deck <- read (Res.data res) ;;
    log (Deck_created (Data.id deck) (Data.name deck) (Data.status deck)) ;;
    ret deck.

Definition startExport (deckId : option string) (fmt : string) (up : bool) : M Data.t :=
  log (Starting_export fmt) ;;
  res <- request "POST" ("/v1/decks/" ++ show deckId ++ "/export")
           (Some (ExportPayload fmt up)) ;;
  if negb (Res.status res =? 200)%Z then
    log (Error_starting_export (Res.status res) (Res.data res)) ;;
    process_exit 1
  else
    job <- read (Res.data res) ;;
    log (Export_started (Data.export_id job)) ;;
    ret job.

(** ** main *)

Definition view_url (deck : Data.t) : string :=
  "https://vibeslides.app/d/" ++ show (Data.id deck).

(** The summary of the skip-export path (line 242). *)
Definition deck_summary (deck completedDeck : Data.t) : json :=
  (prop "id" JStr (Data.id deck) ++
   prop "name" JStr (Data.name deck) ++
   prop "slides" JNum (Data.slides_count completedDeck) ++
   [("url", JStr (view_url deck))])%list.

(** The summary of the export path (lines 270-277). *)
Definition export_summary (deck completedDeck : Data.t) (ext outPath : string) : json :=
  (prop "id" JStr (Data.id deck) ++
   prop "name" JStr (Data.name deck) ++
   prop "slides" JNum (Data.slides_count completedDeck) ++
   [("format", JStr ext); ("file", JStr outPath); ("url", JStr (view_url deck))])%list.

(** Line 227: [useStdin ? await readStdin() : args.join(" ")]. *)
Definition prompt_text : string :=
  if useStdin cfg then stdin E else String.concat " " (args cfg).

Definition main (fuel : nat) : M unit :=
  let prompt := prompt_text in
  if negb (truthy (Some prompt)) then
    emit (ConsoleError (Usage_line 1)) ;;
    emit (ConsoleError (Usage_line 2)) ;;
    process_exit 1
  else
    (* 1. Create deck *)
    deck <- createDeck prompt (deckName cfg) ;;
    (* 2. Wait for generation *)
    completedDeck <- pollDeckStatus fuel (Data.id deck) ;;
    if noExport cfg then
      emit (ConsoleLog (JSON_line (deck_summary deck completedDeck))) ;;
      ret tt
    else
      (* 3. Export *)
      exportJob <- startExport (Data.id deck) (format cfg) (upscale cfg) ;;
      (* 4. Wait for export *)
      completedExport <- pollExportStatus fuel (Data.id deck) (Data.export_id exportJob) ;;
      if negb (truthy (Data.download_url completedExport)) then
        log No_download_url_in_export_response ;;
        process_exit 1
      else
        (* 5. Download *)
        let ext := if format cfg =? "pptx" then "pptx" else "pdf" in
        outName <- (if truthy (filename cfg) then ret (show (filename cfg))
                    else match Data.id deck with
                         | Some i => ret ("deck-" ++ slice E i 0 8)
                         | None => throw TypeError
                         end) ;;
        let outPath := path_resolve E (outDir cfg) (outName ++ "." ++ ext) in
        emit (MkdirSync (path_dirname E outPath)) ;;
        log (Downloading ext) ;;
        download fuel (show (Data.download_url completedExport)) outPath ;;
        size <- statSync_size outPath ;;
        log (Saved outPath size) ;;
        emit (ConsoleLog (FILE_line outPath)) ;;
        emit (ConsoleLog (JSON_line (export_summary deck completedDeck ext outPath))) ;;
        ret tt.

(** [main().catch((e) => { console.error(e); process.exit(1); })]; a run
    that falls off the end of [main] leaves the process with code 0. *)
Definition program (fuel : nat) : M unit :=
  fun w =>
    match main fuel w with
    | (Throw e, w') => (emit (ConsoleError (Error_line e)) ;; process_exit 1) w'
    | r => r
    end.

Definition exit_code {A} (r : result A) : option Z :=
  match r with
  | Ret _ => Some 0%Z
  | Exit c => Some c
  | Throw _ => None
  | Diverge => None
  | Stuck => None
  end.

End Script.

(** ** Conditions and messages named for the statements below *)

(** The terminal-success test of the deck poll (line 166). *)
Definition deck_ready (deck : Data.t) : bool :=
  strict_eq (Data.status deck) "complete"
  && (default0 (Data.slides_count deck) >? 0)%Z
  && (default0 (Data.slides_complete deck) >=? default0 (Data.slides_count deck))%Z.

(** The log line of a pass of the deck poll that goes on polling
    (lines 172-176). *)
Definition deck_progress_msg (deck : Data.t) (wait : Q) : msg :=
  if strict_eq (Data.status deck) "complete" then
    Generation_done_rendering (default0 (Data.slides_complete deck))
                              (default0 (Data.slides_count deck))
  else
    Deck_status (Data.status deck) (default0 (Data.slides_complete deck))
                (default0 (Data.slides_count deck)) wait.


(** The terminal-success test of the export poll (line 206). *)
Definition export_done (exp : Data.t) : bool :=
  strict_eq (Data.status exp) "complete" || truthy (Data.download_url exp).

(** ** A concrete configuration and scripted servers

    The defaults of the command line ([--poll-deck 5], [--poll-export 1],
    [--timeout 600], format pdf) and a few server scripts, on which the
    statements below are evaluated. *)
Module Demo.

Definition cfg : config :=
  mkConfig ["Quarterly"; "update"] false false false None "pdf" "." None 5 1 600.

(** [--timeout 2 --poll-deck 1]. *)
Definition cfg_short : config :=
  mkConfig ["Quarterly"; "update"] false false false None "pdf" "." None 1 1 2.

Definition cfg_no_export : config :=
  mkConfig ["Quarterly"; "update"] false true false None "pdf" "." None 5 1 600.

(** [Number] on a run of decimal digits. *)
Fixpoint digits (s : string) (acc : Z) : Z :=
  match s with
  | EmptyString => acc
  | String c s' => digits s' (10 * acc + (Z.of_nat (Ascii.nat_of_ascii c) - 48))
  end.

(** The replies of the script, in order; once they are used up, requests
    are rejected.  Identifiers are ASCII, so that [slice] is
    [substring]. *)
Definition mkenv (replies : list Res.t) (web : string -> hop) : env :=
  mkEnv (fun k => match nth_error replies k with
                  | Some res => Resolves res
                  | None => Rejects
                  end)
        (fun _ => 120%Z) (fun _ => 1000%Z)
        web
        (fun s => inject_Z (digits s 0))
        (fun s first last => substring first (last - first) s)
        "Quarterly update"
        (fun dir file => dir ++ "/" ++ file)
        (fun _ => ".").


(** A server that never answers. *)
Definition silent : env :=
  mkEnv (fun _ => Never_settles)
        (fun _ => 120%Z) (fun _ => 1000%Z)
        (fun _ => Unfinished "")
        (fun s => inject_Z (digits s 0))
        (fun s first last => substring first (last - first) s)
        "Quarterly update"
        (fun dir file => dir ++ "/" ++ file)
        (fun _ => ".").

Definition no_web : string -> hop := fun _ => Net_error.

(** A download URL that redirects twice before it serves the file, and
    one that ends in a 404. *)
Definition web (url : string) : hop :=
  if url =? "https://api.example/dl/1" then
    Response 302 (Some "https://cdn.example/a") "moved"
  else if url =? "https://cdn.example/a" then
    Response 307 (Some "https://cdn.example/b") ""
  else if url =? "https://cdn.example/b" then
    Response 200 None "%PDF-1.7"
  else if url =? "https://api.example/dl/2" then
    Response 301 (Some "https://cdn.example/gone") ""
  else if url =? "https://cdn.example/gone" then
    Response 404 None "not found"
  else Net_error.

Definition w0 : world := mkWorld 0 [] 0 0 (fun _ => None).

Definition deck (status : string) (slides_count slides_complete : Z) : Data.t :=
  Data.mk (Some "d3adb33f-0001") (Some "Quarterly") (Some status)
          (Some slides_count) (Some slides_complete) None None None None.

Definition failed_deck : Data.t :=
  Data.mk (Some "d3adb33f-0001") (Some "Quarterly") (Some "error")
          None None (Some "prompt rejected") None None None.

Definition export (status : string) (progress : Q) (url : option string) : Data.t :=
  Data.mk None None (Some status) None None None (Some "e1") (Some progress) url.

Definition ok (d : Data.t) : Res.t := Res.mk 200 None (Some d).

Definition ok_retry_after (h : string) (d : Data.t) : Res.t :=
  Res.mk 200 (Some h) (Some d).

Definition unavailable : Res.t := Res.mk 503 None (Some Data.empty).

Definition id1 : option string := Some "d3adb33f-0001".

End Demo.

(** A property or header that is present as far as the script can tell:
    it holds a non-empty string ([undefined] and the empty string are both
    falsy in the script's tests). *)
Definition present (o : option string) : Prop :=
  exists s, o = Some s /\ s <> "".


(** What a poller makes of the end of its loop: the returned reply, or the
    time-out line and [process.exit(1)] (lines 179-180, 220-221). *)
Definition after_loop (timed_out : msg) (r : result (option Data.t) * world)
    : result Data.t * world :=
  match r with
  | (Ret (Some d), w) => (Ret d, w)
  | (Ret None, w) => (Exit 1, add_event (Log timed_out) w)
  | (Exit c, w) => (Exit c, w)
  | (Throw e, w) => (Throw e, w)
  | (Diverge, w) => (Diverge, w)
  | (Stuck, w) => (Stuck, w)
  end.



(** [polls deadline body s w s' w']: from the loop variables [s] in the
    world [w], passes through [body] that each began before the deadline
    and each went on polling lead to [s'] in [w']. *)
Inductive polls {A S} (deadline : Q) (body : S -> M (step A S))
    : S -> world -> S -> world -> Prop :=
| polls_here (s : S) (w : world) : polls deadline body s w s w
| polls_next (s s1 s2 : S) (w w1 w2 : world) :
    (inject_Z (clock w) < deadline)%Q ->
    body s w = (Ret (Continue s1), w1) ->
    polls deadline body s1 w1 s2 w2 ->
    polls deadline body s w s2 w2.


(** ** Redirect chains *)

(** The world once [download] has opened [dest] and sent its [GET]. *)
Definition opened (url dest : string) (w : world) : world :=
  add_event (Get url) (set_file dest (Some "") (add_event (CreateWriteStream dest) w)).

(** The world once [download] has removed [dest] on a redirect. *)
Definition redirected (url dest : string) (w : world) : world :=
  set_file dest None (add_event (UnlinkSync dest) (opened url dest w)).

(** The test of line 109. *)
Definition is_redirect (statusCode : Z) (location : option string) : bool :=
  (statusCode >=? 300)%Z && (statusCode <? 400)%Z && truthy location.

(** The web answers [url] with a 3xx whose [Location] is [loc]. *)
Definition redirects (E : env) (url loc : string) : Prop :=
  exists statusCode body,
    fetch E url = Response statusCode (Some loc) body
    /\ (300 <= statusCode < 400)%Z /\ loc <> "".

(** [follows E n url final]: [n] redirects lead from [url] to [final]. *)
Inductive follows (E : env) : nat -> string -> string -> Prop :=
| follows_here (url : string) : follows E 0 url url
| follows_redirect (n : nat) (url loc final : string) :
    redirects E url loc -> follows E n loc final -> follows E (S n) url final.

(** ** Events of the deck stage *)

(** The lines that [createDeck] and [pollDeckStatus] log. *)
Definition deck_stage_msg (m : msg) : bool :=
  match m with
  | Creating_deck | Error_creating_deck _ _ | Deck_created _ _ _
  | Waiting_for_deck_generation | Error_polling_deck _
  | Deck_generation_failed _ | Deck_complete _
  | Generation_done_rendering _ _ | Deck_status _ _ _ _
  | Timeout_waiting_for_deck_generation => true
  | _ => false
  end.

(** What steps 1 and 2 of [main] do for the deck [deckId]: they log, they
    [POST /v1/decks], they [GET /v1/decks/<id>], they set timers. *)
Definition deck_stage_event (deckId : option string) (e : event) : bool :=
  match e with
  | Log m => deck_stage_msg m
  | SetTimeout _ => true
  | Request method endpoint (Some (DeckPayload _ _)) =>
      (method =? "POST") && (endpoint =? "/v1/decks")
  | Request method endpoint None =>
      (method =? "GET") && (endpoint =? "/v1/decks/" ++ show deckId)
  | _ => false
  end.

(** An export call: the [POST] of [startExport], or the [GET] of
    [pollExportStatus]. *)
Definition export_call (deckId : option string) (e : event) : bool :=
  match e with
  | Request _ _ (Some (ExportPayload _ _)) => true
  | Request _ endpoint _ =>
      prefix ("/v1/decks/" ++ show deckId ++ "/export") endpoint
  | _ => false
  end.

(** What [download] and the preparation of its destination do. *)
Definition download_event (e : event) : bool :=
  match e with
  | Get _ | CreateWriteStream _ | UnlinkSync _ | MkdirSync _ => true
  | _ => false
  end.

(** What a run with [--no-export] may do: the deck stage, lines on
    standard error, and a JSON summary without a [file] field on standard
    output. *)
Definition no_export_event (deckId : option string) (e : event) : bool :=
  match e with
  | ConsoleError _ => true
  | ConsoleLog (JSON_line j) => negb (has_field "file" j)
  | _ => deck_stage_event deckId e
  end.

(** [m] adds to the trace only events that satisfy [P], and takes none
    away. *)
Definition emits {A} (P : event -> bool) (m : M A) : Prop :=
  forall w r w',
    m w = (r, w') ->
    exists l, trace w' = (trace w ++ l)%list /\ forallb P l = true.

(** ** The command line (lines 33-57)

    [args] is [process.argv.slice(2)]; [flag] and [opt] take what they
    recognise out of it, one after the other, and what is left is the
    prompt.  The array is threaded through explicitly. *)

(** [args.indexOf(name)]; [None] is [-1]. *)
Fixpoint indexOf (name : string) (args : list string) : option nat :=
  match args with
  | [] => None
  | a :: rest => if a =? name then Some O else option_map S (indexOf name rest)
  end.

(** [args.splice(i, count)], for what it leaves in [args]. *)
Definition splice (i count : nat) (args : list string) : list string :=
  (firstn i args ++ skipn (i + count) args)%list.

(** [flag(name)]: [true], or [false] for [undefined]. *)
Definition flag (name : string) (args : list string) : bool * list string :=
  match indexOf name args with
  | None => (false, args)
  | Some i => (true, splice i 1 args)
  end.

(** [opt(name, def)]; the value is [args[i + 1]], undefined when [name] is
    the last word. *)
Definition opt (name : string) (def : option string) (args : list string)
    : option string * list string :=
  match indexOf name args with
  | None => (def, args)
  | Some i => (nth_error args (i + 1), splice i 2 args)
  end.

(** The module-level constants of lines 48-57, before [Number] is applied
    to the last three. *)
Record options := mkOptions {
  words : list string;                (* [args] once everything is parsed *)
  opt_stdin : bool;
  opt_no_export : bool;
  opt_upscale : bool;
  opt_name : option string;
  opt_format : option string;
  opt_out : option string;
  opt_filename : option string;
  opt_poll_deck : option string;
  opt_poll_export : option string;
  opt_timeout : option string
}.

Definition parse (argv : list string) : options :=
  let '(useStdin, a) := flag "--stdin" argv in
  let '(noExport, a) := flag "--no-export" a in
  let '(upscale, a) := flag "--upscale" a in
  let upscale := upscale || false in
  let '(deckName, a) := opt "--name" None a in
  let '(format, a) := opt "--format" (Some "pdf") a in
  let '(outDir, a) := opt "--out" (Some ".") a in
  let '(filename, a) := opt "--filename" None a in
  let '(pollDeck, a) := opt "--poll-deck" (Some "5") a in
  let '(pollExport, a) := opt "--poll-export" (Some "1") a in
  let '(timeout, a) := opt "--timeout" (Some "600") a in
  mkOptions a useStdin noExport upscale deckName format outDir filename
            pollDeck pollExport timeout.

(** The words that [parse] recognises. *)
Definition option_names : list string :=
  ["--stdin"; "--no-export"; "--upscale"; "--name"; "--format"; "--out";
   "--filename"; "--poll-deck"; "--poll-export"; "--timeout"].

(** The configuration the script runs with, when every option that the
    script uses as a string or a number has a value (an option name at the
    end of the command line leaves its constant undefined). *)
Definition config_of (E : env) (o : options) : option config :=
  match opt_format o, opt_out o, opt_poll_deck o, opt_poll_export o, opt_timeout o with
  | Some format, Some outDir, Some pollDeck, Some pollExport, Some timeout =>
      Some (mkConfig (words o) (opt_stdin o) (opt_no_export o) (opt_upscale o)
                     (opt_name o) format outDir (opt_filename o)
                     (Number E pollDeck) (Number E pollExport) (Number E timeout))
  | _, _, _, _, _ => None
  end.

(** ** Events of the export poll *)

(** What [pollExportStatus] does for the export [exportId] of the deck
    [deckId]: it logs its own lines, it [GET]s the export, it sets
    timers. *)
Definition export_poll_event (deckId exportId : option string) (e : event) : bool :=
  match e with
  | Log Waiting_for_export | Log (Export_poll_error_retrying _)
  | Log Export_complete | Log (Export_failed _) | Log (Export_progress _)
  | Log Timeout_waiting_for_export => true
  | SetTimeout _ => true
  | Request method endpoint None =>
      (method =? "GET")
      && (endpoint =? "/v1/decks/" ++ show deckId ++ "/export?export_id=" ++ show exportId)
  | _ => false
  end.



(** ** Redirects without end *)

(** Every URL that redirects lead to from [url] redirects again. *)
Definition endless (E : env) (url : string) : Prop :=
  forall n final, follows E n url final -> exists loc, redirects E final loc.

(** A web on which everything redirects to one and the same URL. *)
Definition loop_web : string -> hop :=
  fun _ => Response 302 (Some "https://cdn.example/loop") "".

(** ** The stages of [main], named *)

Section Stages.

Variable E : env.
Variable cfg : config.

(** The extension of the file (line 258). *)
Definition ext_of_format : string :=
  if format cfg =? "pptx" then "pptx" else "pdf".

(** Step 5 of [main] and the output (lines 252-277), once the export
    poll has returned [completedExport]. *)
Definition finish_export (fuel : nat) (deck completedDeck completedExport : Data.t)
    : M unit :=
  if negb (truthy (Data.download_url completedExport)) then
    log No_download_url_in_export_response ;;
    process_exit 1
  else
    let ext := if format cfg =? "pptx" then "pptx" else "pdf" in
    outName <- (if truthy (filename cfg) then ret (show (filename cfg))
                else match Data.id deck with
                     | Some i => ret ("deck-" ++ slice E i 0 8)
                     | None => throw TypeError
                     end) ;;
    let outPath := path_resolve E (outDir cfg) (outName ++ "." ++ ext) in
    emit (MkdirSync (path_dirname E outPath)) ;;
    log (Downloading ext) ;;
    download E fuel (show (Data.download_url completedExport)) outPath ;;
    size <- statSync_size outPath ;;
    log (Saved outPath size) ;;
    emit (ConsoleLog (FILE_line outPath)) ;;
    emit (ConsoleLog (JSON_line (export_summary deck completedDeck ext outPath))) ;;
    ret tt.

(** Steps 3 to 5 of [main] (lines 246-277), once the deck poll has
    returned [completedDeck]. *)
Definition export_stage (fuel : nat) (deck completedDeck : Data.t) : M unit :=
  exportJob <- startExport E (Data.id deck) (format cfg) (upscale cfg) ;;
  completedExport <- pollExportStatus E cfg fuel (Data.id deck) (Data.export_id exportJob) ;;
  finish_export fuel deck completedDeck completedExport.

(** What [main] does once the deck poll has returned (lines 240-277). *)
Definition after_deck (fuel : nat) (deck completedDeck : Data.t) : M unit :=
  if noExport cfg then
    emit (ConsoleLog (JSON_line (deck_summary deck completedDeck))) ;;
    ret tt
  else export_stage fuel deck completedDeck.

End Stages.

(** The call that starts an export: the [POST] of [startExport]. *)
Definition starts_export (e : event) : bool :=
  match e with
  | Request _ _ (Some (ExportPayload _ _)) => true
  | _ => false
  end.

Definition any_event (e : event) : bool := true.

(** How a run of [main] can have ended before the deck poll returned a
    deck: on the usage error, in [createDeck], or in [pollDeckStatus]. *)
Definition early_event (deckId : option string) (e : event) : bool :=
  match e with
  | ConsoleError (Usage_line _) => true
  | _ => deck_stage_event deckId e
  end.

Definition not_download (e : event) : bool := negb (download_event e).

Definition not_export_start (e : event) : bool := negb (starts_export e).

(** What does not go to standard output: everything but [console.log]. *)
Definition not_stdout (e : event) : bool :=
  match e with
  | ConsoleLog _ => false
  | _ => true
  end.

(** From [w] to [w'] nothing was written on standard output. *)
Definition stdout_untouched (w w' : world) : Prop :=
  exists l, trace w' = (trace w ++ l)%list /\ forallb not_stdout l = true.


(** * Properties *)

(** ** Booleans of the script against propositions *)

Lemma Qltb_true (a b : Q) : Qltb a b = true <-> (a < b)%Q.
Proof.
  unfold Qltb. rewrite negb_true_iff.
  destruct (Qle_bool b a) eqn:Hle.
  - apply Qle_bool_iff in Hle. split; [discriminate | intro; lra].
  - split; [intros _ | reflexivity].
    apply Qnot_le_lt. intro H. apply Qle_bool_iff in H. congruence.
Qed.

Lemma Qltb_false (a b : Q) : Qltb a b = false <-> (b <= a)%Q.
Proof.
  unfold Qltb. rewrite negb_false_iff. apply Qle_bool_iff.
Qed.

Lemma server_resolves {E : env} {k : nat} {res : Res.t} :
  server E k = Some res -> settles E k = Resolves res.
Proof.
  unfold server. destruct (settles E k); congruence.
Qed.

Lemma strict_eq_true (v : option string) (s : string) :
  strict_eq v s = true <-> v = Some s.
Proof.
  destruct v as [t|]; simpl.
  - rewrite String.eqb_eq. split; congruence.
  - split; discriminate.
Qed.

Lemma strict_eq_false (v : option string) (s : string) :
  strict_eq v s = false <-> v <> Some s.
Proof.
  rewrite <- strict_eq_true. destruct (strict_eq v s); split; congruence.
Qed.

Lemma truthy_true (o : option string) :
  truthy o = true <-> exists s, o = Some s /\ s <> "".
Proof.
  destruct o as [s|]; simpl.
  - rewrite negb_true_iff, String.eqb_neq. split.
    + intro H. exists s. split; [reflexivity | exact H].
    + intros (t & Ht & Hne). congruence.
  - split; [discriminate | intros (t & Ht & _); discriminate].
Qed.

Lemma truthy_show (o : option string) : truthy o = true -> o = Some (show o).
Proof.
  destruct o; simpl; [reflexivity | discriminate].
Qed.

Lemma deck_ready_true (deck : Data.t) :
  deck_ready deck = true <->
  Data.status deck = Some "complete"
  /\ (default0 (Data.slides_count deck) > 0)%Z
  /\ (default0 (Data.slides_complete deck) >= default0 (Data.slides_count deck))%Z.
Proof.
  unfold deck_ready. rewrite !andb_true_iff, strict_eq_true.
  rewrite Z.gtb_ltb, Z.geb_leb, Z.ltb_lt, Z.leb_le. intuition lia.
Qed.

(** ** One pass through the body of the deck poll *)

Ltac exec :=
  unfold bind, ret, log, emit, process_exit, throw, diverge, read, request,
         sleep, Date_now; cbn beta iota.

Section DeckBody.

Variable E : env.
Variable cfg : config.
Variable deckId : option string.
Variable w : world.
Variable res : Res.t.
Hypothesis reply : server E (requests w) = Some res.

Let w1 : world := after_request E "GET" ("/v1/decks/" ++ show deckId) None w.

Lemma pollDeck_body_not_200 :
  Res.status res <> 200%Z ->
  pollDeck_body E cfg deckId tt w
  = (Exit 1, add_event (Log (Error_polling_deck (Res.status res))) w1).
Proof.
  intro Hst. unfold pollDeck_body. exec. rewrite (server_resolves reply).
  apply Z.eqb_neq in Hst. rewrite Hst. reflexivity.
Qed.

Lemma pollDeck_body_null :
  Res.status res = 200%Z -> Res.data res = None ->
  pollDeck_body E cfg deckId tt w = (Throw TypeError, w1).
Proof.
  intros Hst Hd. unfold pollDeck_body. exec. rewrite (server_resolves reply), Hst, Hd. reflexivity.
Qed.

Variable deck : Data.t.
Hypothesis ok : Res.status res = 200%Z.
Hypothesis body : Res.data res = Some deck.

Lemma pollDeck_body_error :
  Data.status deck = Some "error" ->
  pollDeck_body E cfg deckId tt w
  = (Exit 1, add_event (Log (Deck_generation_failed (or_unknown (Data.error deck)))) w1).
Proof.
  intro Hs. unfold pollDeck_body. exec. rewrite (server_resolves reply), ok, body. cbn.
  rewrite Hs. reflexivity.
Qed.

Lemma pollDeck_body_ready :
  deck_ready deck = true ->
  pollDeck_body E cfg deckId tt w
  = (Ret (Return deck),
     add_event (Log (Deck_complete (default0 (Data.slides_count deck)))) w1).
Proof.
  intro Hr. unfold pollDeck_body. exec. rewrite (server_resolves reply), ok, body. cbn.
  assert (Hne : strict_eq (Data.status deck) "error" = false).
  { apply deck_ready_true in Hr as (Hs & _). rewrite Hs. reflexivity. }
  rewrite Hne. unfold deck_ready in Hr. rewrite Hr. reflexivity.
Qed.

Lemma pollDeck_body_wait :
  Data.status deck <> Some "error" ->
  deck_ready deck = false ->
  pollDeck_body E cfg deckId tt w
  = (Ret (Continue tt),
     after_sleep E (mul64 (deck_wait E cfg res) 1000)
       (add_event (Log (deck_progress_msg deck (deck_wait E cfg res))) w1)).
Proof.
  intros Hs Hr. unfold pollDeck_body. exec. rewrite (server_resolves reply), ok, body. cbn.
  apply strict_eq_false in Hs. rewrite Hs.
  unfold deck_ready in Hr. rewrite Hr.
  unfold deck_progress_msg.
  destruct (strict_eq (Data.status deck) "complete"); reflexivity.
Qed.

End DeckBody.

(** ** One pass through the body of the export poll *)

Section ExportBody.

Variable E : env.
Variable cfg : config.
Variables deckId exportId : option string.
Variable interval : Q.
Variable w : world.
Variable res : Res.t.
Hypothesis reply : server E (requests w) = Some res.

Let w1 : world :=
  after_request E "GET"
    ("/v1/decks/" ++ show deckId ++ "/export?export_id=" ++ show exportId) None w.

Lemma pollExport_body_not_200 :
  Res.status res <> 200%Z ->
  pollExport_body E cfg deckId exportId interval w
  = (Ret (Continue interval),
     after_sleep E (mul64 interval 1000)
       (add_event (Log (Export_poll_error_retrying (Res.status res))) w1)).
Proof.
  intro Hst. unfold pollExport_body. exec. rewrite (server_resolves reply).
  apply Z.eqb_neq in Hst. rewrite Hst. reflexivity.
Qed.

Lemma pollExport_body_null :
  Res.status res = 200%Z -> Res.data res = None ->
  pollExport_body E cfg deckId exportId interval w = (Throw TypeError, w1).
Proof.
  intros Hst Hd. unfold pollExport_body. exec. rewrite (server_resolves reply), Hst, Hd. reflexivity.
Qed.

Variable exp : Data.t.
Hypothesis ok : Res.status res = 200%Z.
Hypothesis body : Res.data res = Some exp.

Lemma pollExport_body_done :
  export_done exp = true ->
  pollExport_body E cfg deckId exportId interval w
  = (Ret (Return exp), add_event (Log Export_complete) w1).
Proof.
  intro Hd. unfold pollExport_body. exec. rewrite (server_resolves reply), ok, body. cbn.
  unfold export_done in Hd. rewrite Hd. reflexivity.
Qed.

Lemma pollExport_body_error :
  export_done exp = false ->
  Data.status exp = Some "error" ->
  pollExport_body E cfg deckId exportId interval w
  = (Exit 1, add_event (Log (Export_failed (or_unknown (Data.error exp)))) w1).
Proof.
  intros Hd Hs. unfold pollExport_body. exec. rewrite (server_resolves reply), ok, body. cbn.
  unfold export_done in Hd. rewrite Hd, Hs. reflexivity.
Qed.

Lemma pollExport_body_progress :
  export_done exp = false ->
  Data.status exp <> Some "error" ->
  pollExport_body E cfg deckId exportId interval w
  = (Ret (Continue (next_interval cfg (or_zero (Data.progress exp)))),
     after_sleep E (mul64 (next_interval cfg (or_zero (Data.progress exp))) 1000)
       (add_event (Log (Export_progress (or_zero (Data.progress exp)))) w1)).
Proof.
  intros Hd Hs. unfold pollExport_body. exec. rewrite (server_resolves reply), ok, body. cbn.
  unfold export_done in Hd. rewrite Hd.
  apply strict_eq_false in Hs. rewrite Hs. reflexivity.
Qed.

End ExportBody.

(** ** The loop *)

Section Loop.

Context {A S : Type}.
Variable deadline : Q.
Variable body : S -> M (step A S).

Lemma while_before_expired (fuel : nat) (s : S) (w : world) :
  (deadline <= inject_Z (clock w))%Q ->
  while_before (Datatypes.S fuel) deadline body s w = (Ret None, w).
Proof.
  intro H. apply Qltb_false in H. cbn. exec. rewrite H. reflexivity.
Qed.

Lemma while_before_return (fuel : nat) (s : S) (w w' : world) (a : A) :
  (inject_Z (clock w) < deadline)%Q ->
  body s w = (Ret (Return a), w') ->
  while_before (Datatypes.S fuel) deadline body s w = (Ret (Some a), w').
Proof.
  intros H Hb. apply Qltb_true in H. cbn. exec. rewrite H, Hb. reflexivity.
Qed.

Lemma while_before_continue (fuel : nat) (s s' : S) (w w' : world) :
  (inject_Z (clock w) < deadline)%Q ->
  body s w = (Ret (Continue s'), w') ->
  while_before (Datatypes.S fuel) deadline body s w
  = while_before fuel deadline body s' w'.
Proof.
  intros H Hb. apply Qltb_true in H. cbn. exec. rewrite H, Hb. reflexivity.
Qed.

Lemma while_before_exit (fuel : nat) (s : S) (w w' : world) (c : Z) :
  (inject_Z (clock w) < deadline)%Q ->
  body s w = (Exit c, w') ->
  while_before (Datatypes.S fuel) deadline body s w = (Exit c, w').
Proof.
  intros H Hb. apply Qltb_true in H. cbn. exec. rewrite H, Hb. reflexivity.
Qed.


Lemma while_before_stuck (fuel : nat) (s : S) (w w' : world) :
  (inject_Z (clock w) < deadline)%Q ->
  body s w = (Stuck, w') ->
  while_before (Datatypes.S fuel) deadline body s w = (Stuck, w').
Proof.
  intros H Hb. apply Qltb_true in H. cbn. exec. rewrite H, Hb. reflexivity.
Qed.

End Loop.

(** ** The deck poll: terminal success *)

(** C1.  On a 200 reply carrying [deck], a pass through the body of the
    deck poll returns the deck out of the poller exactly when
    [status === "complete"], [slides_count > 0] and
    [slides_complete >= slides_count] (each count 0 when undefined); the
    poller then returns that deck.  A reply with status "complete" and
    [slides_complete < slides_count], or [slides_count = 0], is not
    terminal: the pass logs, sleeps, and the loop goes on to its next
    test of the deadline. *)
Theorem C1_deck_terminal_success
    (E : env) (cfg : config) (deckId : option string) (deadline : Q)
    (fuel : nat) (w : world) (res : Res.t) (deck : Data.t)
    (reply : server E (requests w) = Some res)
    (ok : Res.status res = 200%Z)
    (body : Res.data res = Some deck)
    (before : (inject_Z (clock w) < deadline)%Q) :
  let w1 := after_request E "GET" ("/v1/decks/" ++ show deckId) None w in
  let count := default0 (Data.slides_count deck) in
  let complete := default0 (Data.slides_complete deck) in
  ((exists d w', pollDeck_body E cfg deckId tt w = (Ret (Return d), w'))
   <-> (Data.status deck = Some "complete" /\ (count > 0)%Z /\ (complete >= count)%Z))
  /\ (Data.status deck = Some "complete" -> (count > 0)%Z -> (complete >= count)%Z ->
      while_before (S fuel) deadline (pollDeck_body E cfg deckId) tt w
      = (Ret (Some deck), add_event (Log (Deck_complete count)) w1))
  /\ (Data.status deck = Some "complete" -> ((complete < count)%Z \/ count = 0%Z) ->
      let w2 := after_sleep E (mul64 (deck_wait E cfg res) 1000)
                  (add_event (Log (Generation_done_rendering complete count)) w1) in
      pollDeck_body E cfg deckId tt w = (Ret (Continue tt), w2)
      /\ while_before (S fuel) deadline (pollDeck_body E cfg deckId) tt w
         = while_before fuel deadline (pollDeck_body E cfg deckId) tt w2).
Proof.
  intros w1 count complete.
  assert (Hwait : Data.status deck = Some "complete" -> deck_ready deck = false ->
                  pollDeck_body E cfg deckId tt w
                  = (Ret (Continue tt),
                     after_sleep E (mul64 (deck_wait E cfg res) 1000)
                       (add_event (Log (Generation_done_rendering complete count)) w1))).
  { intros Hs Hr.
    rewrite (pollDeck_body_wait E cfg deckId w res reply deck ok body); trivial.
    - unfold deck_progress_msg. rewrite Hs. reflexivity.
    - rewrite Hs. discriminate. }
  split; [split|split].
  - intros (d & w' & Hb).
    destruct (deck_ready deck) eqn:Hr; [apply deck_ready_true; exact Hr|].
    destruct (strict_eq (Data.status deck) "error") eqn:Herr.
    + apply strict_eq_true in Herr.
      rewrite (pollDeck_body_error E cfg deckId w res reply deck ok body Herr) in Hb.
      discriminate.
    + apply strict_eq_false in Herr.
      rewrite (pollDeck_body_wait E cfg deckId w res reply deck ok body Herr Hr) in Hb.
      discriminate.
  - intro H. apply deck_ready_true in H.
    exists deck. eexists.
    apply (pollDeck_body_ready E cfg deckId w res reply deck ok body H).
  - intros Hs Hc Hk.
    apply while_before_return; [exact before|].
    apply (pollDeck_body_ready E cfg deckId w res reply deck ok body).
    apply deck_ready_true. auto.
  - intros Hs Hlt w2.
    assert (Hr : deck_ready deck = false).
    { destruct (deck_ready deck) eqn:Hr; [|reflexivity].
      apply deck_ready_true in Hr. fold count complete in Hr. lia. }
    split; [apply Hwait; assumption|].
    apply while_before_continue; [exact before|]. apply Hwait; assumption.
Qed.

(** C1 on a reply with status "complete", 5 slides, 3 of them rendered. *)
Lemma C1_deck_terminal_success_witness :
  let E := Demo.mkenv [Demo.ok (Demo.deck "complete" 5 3)] Demo.no_web in
  pollDeck_body E Demo.cfg Demo.id1 tt Demo.w0
  = (Ret (Continue tt),
     after_sleep E (mul64 5 1000)
       (add_event (Log (Generation_done_rendering 3 5))
          (after_request E "GET" "/v1/decks/d3adb33f-0001" None Demo.w0))).
Proof.
  intro E.
  refine (proj1 (proj2 (proj2
    (C1_deck_terminal_success E Demo.cfg Demo.id1 600000 0 Demo.w0
       (Demo.ok (Demo.deck "complete" 5 3)) (Demo.deck "complete" 5 3)
       _ _ _ _)) _ _)).
  - reflexivity.
  - reflexivity.
  - reflexivity.
  - reflexivity.
  - reflexivity.
  - left. reflexivity.
Defined.

Lemma truthy_present (o : option string) : truthy o = true <-> present o.
Proof. apply truthy_true. Qed.

Lemma truthy_absent (o : option string) : truthy o = false <-> ~ present o.
Proof.
  rewrite <- truthy_present. destruct (truthy o); split; congruence.
Qed.

Lemma export_done_true (exp : Data.t) :
  export_done exp = true <->
  Data.status exp = Some "complete" \/ present (Data.download_url exp).
Proof.
  unfold export_done. rewrite orb_true_iff, strict_eq_true, truthy_present.
  reflexivity.
Qed.

(** ** The export poll: terminal success *)

(** C2.  On a 200 reply carrying [exp], when [status === "complete"] or a
    [download_url] is present, the pass through the body of the export
    poll logs "Export complete!" and returns [exp] out of the poller; so
    does it in particular when the URL is present and the status is not
    "complete". *)
Theorem C2_export_terminal_success
    (E : env) (cfg : config) (deckId exportId : option string) (deadline : Q)
    (fuel : nat) (interval : Q) (w : world) (res : Res.t) (exp : Data.t)
    (reply : server E (requests w) = Some res)
    (ok : Res.status res = 200%Z)
    (body : Res.data res = Some exp)
    (before : (inject_Z (clock w) < deadline)%Q) :
  let w1 := after_request E "GET"
              ("/v1/decks/" ++ show deckId ++ "/export?export_id=" ++ show exportId)
              None w in
  let terminal :=
    pollExport_body E cfg deckId exportId interval w
    = (Ret (Return exp), add_event (Log Export_complete) w1)
    /\ while_before (S fuel) deadline (pollExport_body E cfg deckId exportId) interval w
       = (Ret (Some exp), add_event (Log Export_complete) w1) in
  (Data.status exp = Some "complete" \/ present (Data.download_url exp) -> terminal)
  /\ (present (Data.download_url exp) -> Data.status exp <> Some "complete" -> terminal).
Proof.
  intros w1 terminal.
  assert (H : export_done exp = true -> terminal).
  { intro Hd.
    pose proof (pollExport_body_done E cfg deckId exportId interval w res reply
                  exp ok body Hd) as Hb.
    split; [exact Hb|]. apply while_before_return; [exact before | exact Hb]. }
  split.
  - intro Hc. apply H, export_done_true, Hc.
  - intros Hu _. apply H, export_done_true. right. exact Hu.
Qed.

(** C2 on a reply still "processing" at 80% that already has its URL. *)
Lemma C2_export_terminal_success_witness :
  let exp := Demo.export "processing" 80 (Some "https://cdn.example/deck.pdf") in
  let E := Demo.mkenv [Demo.ok exp] Demo.no_web in
  while_before 1 600000 (pollExport_body E Demo.cfg Demo.id1 (Some "e1")) 1%Q Demo.w0
  = (Ret (Some exp),
     add_event (Log Export_complete)
       (after_request E "GET" "/v1/decks/d3adb33f-0001/export?export_id=e1"
          None Demo.w0)).
Proof.
  intros exp E.
  refine (proj2 (proj2
    (C2_export_terminal_success E Demo.cfg Demo.id1 (Some "e1") 600000 0 1%Q
       Demo.w0 (Demo.ok exp) exp _ _ _ _) _ _)).
  - reflexivity.
  - reflexivity.
  - reflexivity.
  - reflexivity.
  - exists "https://cdn.example/deck.pdf". split; [reflexivity | discriminate].
  - discriminate.
Defined.

(** ** The export poll: success is tested before error *)

(** C10.  The export poll tests success (line 206) before error (line
    210).  On a 200 reply with status "error" and a [download_url]
    present, the pass returns the reply out of the poller: no "Export
    failed" line, no exit.  The pass ends in [process.exit] exactly when
    the status is "error" and no [download_url] is present, and then it is
    [process.exit(1)] right after the "Export failed" line. *)
Theorem C10_export_success_before_error
    (E : env) (cfg : config) (deckId exportId : option string) (deadline : Q)
    (fuel : nat) (interval : Q) (w : world) (res : Res.t) (exp : Data.t)
    (reply : server E (requests w) = Some res)
    (ok : Res.status res = 200%Z)
    (body : Res.data res = Some exp)
    (before : (inject_Z (clock w) < deadline)%Q) :
  let w1 := after_request E "GET"
              ("/v1/decks/" ++ show deckId ++ "/export?export_id=" ++ show exportId)
              None w in
  (Data.status exp = Some "error" -> present (Data.download_url exp) ->
   pollExport_body E cfg deckId exportId interval w
   = (Ret (Return exp), add_event (Log Export_complete) w1)
   /\ while_before (S fuel) deadline (pollExport_body E cfg deckId exportId) interval w
      = (Ret (Some exp), add_event (Log Export_complete) w1))
  /\ ((exists c w', pollExport_body E cfg deckId exportId interval w = (Exit c, w'))
      <-> (Data.status exp = Some "error" /\ ~ present (Data.download_url exp)))
  /\ (Data.status exp = Some "error" -> ~ present (Data.download_url exp) ->
      pollExport_body E cfg deckId exportId interval w
      = (Exit 1, add_event (Log (Export_failed (or_unknown (Data.error exp)))) w1)).
Proof.
  intro w1.
  assert (Herr : Data.status exp = Some "error" -> ~ present (Data.download_url exp) ->
                 pollExport_body E cfg deckId exportId interval w
                 = (Exit 1, add_event (Log (Export_failed (or_unknown (Data.error exp)))) w1)).
  { intros Hs Hu.
    apply (pollExport_body_error E cfg deckId exportId interval w res reply exp ok body);
      [|exact Hs].
    unfold export_done. rewrite Hs. apply truthy_absent in Hu. rewrite Hu. reflexivity. }
  split; [|split].
  - intros Hs Hu.
    assert (Hd : export_done exp = true) by (apply export_done_true; right; exact Hu).
    pose proof (pollExport_body_done E cfg deckId exportId interval w res reply
                  exp ok body Hd) as Hb.
    split; [exact Hb|]. apply while_before_return; [exact before | exact Hb].
  - split.
    + intros (c & w' & Hb).
      destruct (export_done exp) eqn:Hd.
      * rewrite (pollExport_body_done E cfg deckId exportId interval w res reply
                   exp ok body Hd) in Hb. discriminate.
      * destruct (strict_eq (Data.status exp) "error") eqn:Hs.
        -- apply strict_eq_true in Hs. split; [exact Hs|].
           intro Hu. assert (export_done exp = true)
             by (apply export_done_true; right; exact Hu). congruence.
        -- apply strict_eq_false in Hs.
           rewrite (pollExport_body_progress E cfg deckId exportId interval w res
                      reply exp ok body Hd Hs) in Hb. discriminate.
    + intros (Hs & Hu). eexists. eexists. apply Herr; assumption.
  - exact Herr.
Qed.

(** C10 on a reply with status "error" that carries a download URL. *)
Lemma C10_export_success_before_error_witness :
  let exp := Demo.export "error" 100 (Some "https://cdn.example/deck.pdf") in
  let E := Demo.mkenv [Demo.ok exp] Demo.no_web in
  while_before 1 600000 (pollExport_body E Demo.cfg Demo.id1 (Some "e1")) 1%Q Demo.w0
  = (Ret (Some exp),
     add_event (Log Export_complete)
       (after_request E "GET" "/v1/decks/d3adb33f-0001/export?export_id=e1"
          None Demo.w0)).
Proof.
  intros exp E.
  refine (proj2 (proj1
    (C10_export_success_before_error E Demo.cfg Demo.id1 (Some "e1") 600000 0 1%Q
       Demo.w0 (Demo.ok exp) exp _ _ _ _) _ _)).
  - reflexivity.
  - reflexivity.
  - reflexivity.
  - reflexivity.
  - reflexivity.
  - exists "https://cdn.example/deck.pdf". split; [reflexivity | discriminate].
Defined.

(** ** The export poll: adaptive interval *)

Lemma next_interval_below (cfg : config) (p : Q) :
  (p < 50)%Q -> next_interval cfg p = pollExport cfg.
Proof.
  intro H. unfold next_interval.
  destruct (Qle_bool 50 p) eqn:Hle; [|reflexivity].
  apply Qle_bool_iff in Hle. lra.
Qed.

Lemma next_interval_from_50 (cfg : config) (p : Q) :
  (50 <= p)%Q ->
  next_interval cfg p = Qmax lit_0_3 (mul64 (pollExport cfg) lit_0_3).
Proof.
  intro H. unfold next_interval.
  apply Qle_bool_iff in H. rewrite H. reflexivity.
Qed.

(** [progress || 0] does not change on which side of 50 the progress is. *)
Lemma next_interval_or_zero (cfg : config) (p : Q) :
  next_interval cfg (or_zero (Some p)) = next_interval cfg p.
Proof.
  unfold next_interval, or_zero.
  destruct (Qeq_bool p 0) eqn:Hz; [|reflexivity].
  apply Qeq_bool_iff in Hz.
  destruct (Qle_bool 50 p) eqn:Hle.
  - apply Qle_bool_iff in Hle. lra.
  - reflexivity.
Qed.

(** C5.  On a 200 reply that is neither done nor failed and reports
    progress [p], the export poll logs the progress and waits
    [interval * 1000] ms, where [interval] is the configured
    [pollExport] when [p < 50] and [Math.max(0.3, pollExport * 0.3)] when
    [p >= 50]; that interval is also the one the loop carries on with.
    The products and the literal [0.3] are those of binary64, as in the
    script. *)
Theorem C5_export_adaptive_interval
    (E : env) (cfg : config) (deckId exportId : option string)
    (interval : Q) (w : world) (res : Res.t) (exp : Data.t) (p : Q)
    (reply : server E (requests w) = Some res)
    (ok : Res.status res = 200%Z)
    (body : Res.data res = Some exp)
    (not_done : export_done exp = false)
    (not_failed : Data.status exp <> Some "error")
    (reported : Data.progress exp = Some p) :
  let w1 := after_request E "GET"
              ("/v1/decks/" ++ show deckId ++ "/export?export_id=" ++ show exportId)
              None w in
  exists next : Q,
    pollExport_body E cfg deckId exportId interval w
    = (Ret (Continue next),
       after_sleep E (mul64 next 1000)
         (add_event (Log (Export_progress (or_zero (Some p)))) w1))
    /\ ((p < 50)%Q -> next = pollExport cfg)
    /\ ((50 <= p)%Q -> next = Qmax lit_0_3 (mul64 (pollExport cfg) lit_0_3)).
Proof.
  intro w1. exists (next_interval cfg p). split; [|split].
  - rewrite (pollExport_body_progress E cfg deckId exportId interval w res reply
               exp ok body not_done not_failed).
    rewrite reported, next_interval_or_zero. reflexivity.
  - apply next_interval_below.
  - apply next_interval_from_50.
Qed.

(** C5 on a reply at 80% with [--poll-export 1]. *)
Lemma C5_export_adaptive_interval_witness :
  let exp := Demo.export "processing" 80 None in
  let E := Demo.mkenv [Demo.ok exp] Demo.no_web in
  exists next : Q,
    pollExport_body E Demo.cfg Demo.id1 (Some "e1") 1%Q Demo.w0
    = (Ret (Continue next),
       after_sleep E (mul64 next 1000)
         (add_event (Log (Export_progress (or_zero (Some 80%Q))))
            (after_request E "GET" "/v1/decks/d3adb33f-0001/export?export_id=e1"
               None Demo.w0)))
    /\ ((80 < 50)%Q -> next = pollExport Demo.cfg)
    /\ ((50 <= 80)%Q ->
        next = Qmax lit_0_3 (mul64 (pollExport Demo.cfg) lit_0_3)).
Proof.
  intros exp E.
  refine (C5_export_adaptive_interval E Demo.cfg Demo.id1 (Some "e1") 1%Q
            Demo.w0 (Demo.ok exp) exp 80%Q _ _ _ _ _ _).
  - reflexivity.
  - reflexivity.
  - reflexivity.
  - reflexivity.
  - discriminate.
  - reflexivity.
Defined.

(** With [--poll-export 3] and a progress of 60 the interval is the
    binary64 product [3 * 0.3], printed 0.8999999999999999, and the timer
    is set to 899.9999999999999 ms, just under 900. *)
Example export_interval_poll_3 :
  let cfg := mkConfig ["Q3"] false false false None "pdf" "." None 5 3 600 in
  next_interval cfg 60 = (2026619832316723 # 2251799813685248)%Q
  /\ mul64 (next_interval cfg 60) 1000 = (7916483719987199 # 8796093022208)%Q
  /\ (mul64 (next_interval cfg 60) 1000 < 900)%Q.
Proof.
  vm_compute. repeat split; reflexivity.
Qed.

(** ** The deck poll: wait interval *)

Lemma deck_wait_header (E : env) (cfg : config) (res : Res.t) (h : string) :
  Res.retry_after res = Some h -> h <> "" -> deck_wait E cfg res = Number E h.
Proof.
  intros Hh Hne. unfold deck_wait. rewrite Hh.
  assert (Ht : truthy (Some h) = true).
  { apply truthy_present. exists h. split; [reflexivity | exact Hne]. }
  rewrite Ht. reflexivity.
Qed.

Lemma deck_wait_default (E : env) (cfg : config) (res : Res.t) :
  ~ present (Res.retry_after res) -> deck_wait E cfg res = pollDeck cfg.
Proof.
  intro Hn. unfold deck_wait.
  destruct (Res.retry_after res) as [h|] eqn:Hh; [|reflexivity].
  apply truthy_absent in Hn. rewrite Hn. reflexivity.
Qed.

(** C8.  On a 200 reply that is not terminal (status not "error", deck
    not ready), the deck poll logs and waits [wait * 1000] ms, where
    [wait] is the number read from the [retry-after] header of that reply
    when the header is present, and the configured [pollDeck] when there
    is no such header. *)
Theorem C8_deck_wait_interval
    (E : env) (cfg : config) (deckId : option string)
    (w : world) (res : Res.t) (deck : Data.t)
    (reply : server E (requests w) = Some res)
    (ok : Res.status res = 200%Z)
    (body : Res.data res = Some deck)
    (not_failed : Data.status deck <> Some "error")
    (not_ready : deck_ready deck = false) :
  let w1 := after_request E "GET" ("/v1/decks/" ++ show deckId) None w in
  exists wait : Q,
    pollDeck_body E cfg deckId tt w
    = (Ret (Continue tt),
       after_sleep E (mul64 wait 1000)
         (add_event (Log (deck_progress_msg deck wait)) w1))
    /\ (forall h, Res.retry_after res = Some h -> h <> "" -> wait = Number E h)
    /\ (Res.retry_after res = None -> wait = pollDeck cfg).
Proof.
  intro w1. exists (deck_wait E cfg res). split; [|split].
  - apply (pollDeck_body_wait E cfg deckId w res reply deck ok body not_failed not_ready).
  - intros h Hh Hne. apply (deck_wait_header E cfg res h Hh Hne).
  - intro Hn. apply deck_wait_default. rewrite Hn.
    intros (s & Hs & _). discriminate.
Qed.

(** C8 on a "generating" reply that carries [retry-after: 2]. *)
Lemma C8_deck_wait_interval_witness :
  let deck := Demo.deck "generating" 5 1 in
  let res := Demo.ok_retry_after "2" deck in
  let E := Demo.mkenv [res] Demo.no_web in
  exists wait : Q,
    pollDeck_body E Demo.cfg Demo.id1 tt Demo.w0
    = (Ret (Continue tt),
       after_sleep E (mul64 wait 1000)
         (add_event (Log (deck_progress_msg deck wait))
            (after_request E "GET" "/v1/decks/d3adb33f-0001" None Demo.w0)))
    /\ (forall h, Res.retry_after res = Some h -> h <> "" -> wait = Number E h)
    /\ (Res.retry_after res = None -> wait = pollDeck Demo.cfg).
Proof.
  intros deck res E.
  refine (C8_deck_wait_interval E Demo.cfg Demo.id1 Demo.w0 res deck _ _ _ _ _).
  - reflexivity.
  - reflexivity.
  - reflexivity.
  - discriminate.
  - reflexivity.
Defined.

(** ** HTTP errors on the status check *)

(** C3, as the code has it.  A status-check reply whose HTTP status is
    not 200 is transient in the export poll only: the pass logs
    "Export poll error: <status>, retrying...", waits the current
    [interval] and the loop goes on, with the same interval.  In the deck
    poll the same reply is fatal: the pass logs
    "Error polling deck: <status>" and calls [process.exit(1)]. *)
Theorem C3_poll_http_error
    (E : env) (cfg : config) (deckId exportId : option string) (deadline : Q)
    (fuel : nat) (interval : Q) (w : world) (res : Res.t)
    (reply : server E (requests w) = Some res)
    (bad : Res.status res <> 200%Z)
    (before : (inject_Z (clock w) < deadline)%Q) :
  let we := after_request E "GET"
              ("/v1/decks/" ++ show deckId ++ "/export?export_id=" ++ show exportId)
              None w in
  let we' := after_sleep E (mul64 interval 1000)
               (add_event (Log (Export_poll_error_retrying (Res.status res))) we) in
  let wd := after_request E "GET" ("/v1/decks/" ++ show deckId) None w in
  let wd' := add_event (Log (Error_polling_deck (Res.status res))) wd in
  (pollExport_body E cfg deckId exportId interval w = (Ret (Continue interval), we')
   /\ while_before (S fuel) deadline (pollExport_body E cfg deckId exportId) interval w
      = while_before fuel deadline (pollExport_body E cfg deckId exportId) interval we')
  /\ (pollDeck_body E cfg deckId tt w = (Exit 1, wd')
      /\ while_before (S fuel) deadline (pollDeck_body E cfg deckId) tt w = (Exit 1, wd')).
Proof.
  intros we we' wd wd'.
  pose proof (pollExport_body_not_200 E cfg deckId exportId interval w res reply bad) as He.
  pose proof (pollDeck_body_not_200 E cfg deckId w res reply bad) as Hd.
  repeat split.
  - exact He.
  - apply while_before_continue; [exact before | exact He].
  - exact Hd.
  - apply while_before_exit; [exact before | exact Hd].
Qed.

(** C3 on a 503 reply, 5 minutes before the deadline. *)
Lemma C3_poll_http_error_witness :
  let E := Demo.mkenv [Demo.unavailable] Demo.no_web in
  while_before 1 300000 (pollDeck_body E Demo.cfg Demo.id1) tt Demo.w0
  = (Exit 1,
     add_event (Log (Error_polling_deck 503))
       (after_request E "GET" "/v1/decks/d3adb33f-0001" None Demo.w0)).
Proof.
  intro E.
  refine (proj2 (proj2
    (C3_poll_http_error E Demo.cfg Demo.id1 (Some "e1") 300000 0 1%Q Demo.w0
       Demo.unavailable _ _ _))).
  - reflexivity.
  - discriminate.
  - reflexivity.
Defined.

(** C3 as stated fails for the deck poll: a 503 on its status check ends
    the process with code 1, and no timer is ever set for a retry. *)
Lemma C3_deck_poll_error_is_fatal :
  let E := Demo.mkenv [Demo.unavailable] Demo.no_web in
  Res.status Demo.unavailable = 503%Z
  /\ fst (pollDeckStatus E Demo.cfg 100 Demo.id1 Demo.w0) = Exit 1
  /\ trace (snd (pollDeckStatus E Demo.cfg 100 Demo.id1 Demo.w0))
     = [Log Waiting_for_deck_generation;
        Request "GET" "/v1/decks/d3adb33f-0001" None;
        Log (Error_polling_deck 503)].
Proof.
  intro E. repeat split; vm_compute; reflexivity.
Qed.

(** ** Deadlines *)

(** The deadline is computed once, before the loop is entered. *)
Lemma pollDeckStatus_eq (E : env) (cfg : config) (fuel : nat)
    (deckId : option string) (w : world) :
  pollDeckStatus E cfg fuel deckId w
  = after_loop Timeout_waiting_for_deck_generation
      (while_before fuel (inject_Z (clock w) + timeout cfg * 1000)
         (pollDeck_body E cfg deckId) tt
         (add_event (Log Waiting_for_deck_generation) w)).
Proof.
  unfold pollDeckStatus. exec. cbn [clock add_event].
  destruct (while_before _ _ _ _ _) as [[[d|]|c|e| |] w']; reflexivity.
Qed.

Lemma pollExportStatus_eq (E : env) (cfg : config) (fuel : nat)
    (deckId exportId : option string) (w : world) :
  pollExportStatus E cfg fuel deckId exportId w
  = after_loop Timeout_waiting_for_export
      (while_before fuel (inject_Z (clock w) + timeout cfg * 1000)
         (pollExport_body E cfg deckId exportId) (pollExport cfg)
         (add_event (Log Waiting_for_export) w)).
Proof.
  unfold pollExportStatus. exec. cbn [clock add_event].
  destruct (while_before _ _ _ _ _) as [[[d|]|c|e| |] w']; reflexivity.
Qed.

Section LoopEnds.

Context {A S : Type}.
Variable deadline : Q.
Variable body : S -> M (step A S).

Hypothesis body_total : forall s w, fst (body s w) <> Diverge.
Hypothesis body_ticks :
  forall s w s' w', body s w = (Ret (Continue s'), w') -> (clock w + 1 <= clock w')%Z.


End LoopEnds.









(** ** download *)

Lemma is_redirect_true (statusCode : Z) (location : option string) :
  is_redirect statusCode location = true <->
  (300 <= statusCode < 400)%Z /\ present location.
Proof.
  unfold is_redirect.
  rewrite !andb_true_iff, Z.geb_leb, Z.leb_le, Z.ltb_lt, truthy_present.
  intuition.
Qed.

Section Download.

Variable E : env.

Lemma download_bad_url (fuel : nat) (url dest : string) (w : world) :
  fetch E url = Bad_url ->
  download E (S fuel) url dest w = (Throw TypeError, w).
Proof.
  intro Hf. cbn [download]. rewrite Hf. reflexivity.
Qed.

Lemma download_net_error (fuel : nat) (url dest : string) (w : world) :
  fetch E url = Net_error ->
  download E (S fuel) url dest w = (Throw Stream_error, opened url dest w).
Proof.
  intro Hf. cbn [download]. rewrite Hf. reflexivity.
Qed.

Lemma download_redirect (fuel : nat) (url dest : string) (w : world)
    (statusCode : Z) (location : option string) (body : string) :
  fetch E url = Response statusCode location body ->
  is_redirect statusCode location = true ->
  download E (S fuel) url dest w
  = download E fuel (show location) dest (redirected url dest w).
Proof.
  intros Hf Hr. cbn [download]. rewrite Hf.
  unfold is_redirect in Hr. unfold createWriteStream, unlinkSync. exec.
  rewrite Hr. reflexivity.
Qed.

Lemma download_failed (fuel : nat) (url dest : string) (w : world)
    (statusCode : Z) (location : option string) (body : string) :
  fetch E url = Response statusCode location body ->
  is_redirect statusCode location = false ->
  statusCode <> 200%Z ->
  download E (S fuel) url dest w
  = (Throw (Download_failed_HTTP statusCode), opened url dest w).
Proof.
  intros Hf Hr Hs. cbn [download]. rewrite Hf.
  unfold is_redirect in Hr. unfold createWriteStream. exec.
  rewrite Hr. apply Z.eqb_neq in Hs. rewrite Hs. reflexivity.
Qed.

Lemma download_saved (fuel : nat) (url dest : string) (w : world)
    (location : option string) (body : string) :
  fetch E url = Response 200 location body ->
  download E (S fuel) url dest w
  = (Ret tt, set_file dest (Some body) (opened url dest w)).
Proof.
  intro Hf. cbn [download]. rewrite Hf. reflexivity.
Qed.

Lemma download_broken (fuel : nat) (url dest partial : string) (w : world) :
  fetch E url = Broken partial ->
  download E (S fuel) url dest w
  = (Throw Stream_error, set_file dest (Some partial) (opened url dest w)).
Proof.
  intro Hf. cbn [download]. rewrite Hf. reflexivity.
Qed.

Lemma download_unfinished (fuel : nat) (url dest partial : string) (w : world) :
  fetch E url = Unfinished partial ->
  download E (S fuel) url dest w
  = (Stuck, set_file dest (Some partial) (opened url dest w)).
Proof.
  intro Hf. cbn [download]. rewrite Hf. reflexivity.
Qed.

Lemma set_file_same (dest : string) (c : option string) (w : world) :
  files (set_file dest c w) dest = c.
Proof.
  cbn. rewrite String.eqb_refl. reflexivity.
Qed.

(** A promise that resolves has reached a 200 at the end of a chain. *)
Lemma download_resolved (fuel : nat) :
  forall (url dest : string) (w w' : world),
    download E fuel url dest w = (Ret tt, w') ->
    exists n final location body,
      follows E n url final
      /\ fetch E final = Response 200 location body
      /\ files w' dest = Some body.
Proof.
  induction fuel as [|fuel IH]; intros url dest w w' Hd.
  - discriminate.
  - destruct (fetch E url) as [| |statusCode location body|partial|partial] eqn:Hf;
      [| | |rewrite (download_broken _ _ _ _ _ Hf) in Hd; discriminate
           |rewrite (download_unfinished _ _ _ _ _ Hf) in Hd; discriminate].
    + rewrite (download_bad_url _ _ _ _ Hf) in Hd. discriminate.
    + rewrite (download_net_error _ _ _ _ Hf) in Hd. discriminate.
    + destruct (is_redirect statusCode location) eqn:Hr.
      * rewrite (download_redirect _ _ _ _ _ _ _ Hf Hr) in Hd.
        apply IH in Hd as (n & final & l & b & Hfo & Hfin & Hfile).
        exists (S n), final, l, b. split; [|split; assumption].
        apply follows_redirect with (loc := show location); [|exact Hfo].
        apply is_redirect_true in Hr as [Hrange (s & Hs & Hne)].
        exists statusCode, body. subst location. cbn. auto.
      * destruct (Z.eq_dec statusCode 200) as [Heq|Hne].
        -- subst statusCode. rewrite (download_saved _ _ _ _ _ _ Hf) in Hd.
           inversion Hd; subst w'.
           exists 0%nat, url, location, body.
           split; [constructor|]. split; [exact Hf | apply set_file_same].
        -- rewrite (download_failed _ _ _ _ _ _ _ Hf Hr Hne) in Hd. discriminate.
Qed.

(** Along a chain of [n] redirects, [n] calls of [download] lead to the
    call on the last URL. *)
Lemma download_follows (n : nat) (url final : string) :
  follows E n url final ->
  forall (fuel : nat) (dest : string) (w : world),
    (n <= fuel)%nat ->
    exists (w1 : world),
      download E (S fuel) url dest w = download E (S (fuel - n)) final dest w1.
Proof.
  induction 1 as [url | n url loc final Hred Hfo IH]; intros fuel dest w Hfuel.
  - exists w. rewrite Nat.sub_0_r. reflexivity.
  - destruct Hred as (statusCode & body & Hf & Hrange & Hne).
    assert (Hr : is_redirect statusCode (Some loc) = true).
    { apply is_redirect_true. split; [exact Hrange|]. exists loc. auto. }
    destruct fuel as [|fuel]; [lia|].
    rewrite (download_redirect _ _ _ _ _ _ _ Hf Hr). cbn [show].
    destruct (IH fuel dest (redirected url dest w)) as (w1 & Hd); [lia|].
    exists w1. rewrite Hd. reflexivity.
Qed.

(** C6.  [download(url, dest)]:
    - on a 3xx reply that carries a [Location], the file just created at
      [dest] is removed and the download starts again on the new
      location, its outcome being the outcome of the whole;
    - its promise resolves only when a chain of such redirects has led to
      a 200, whose body is then in [dest];
    - when the chain leads to a status other than 200 (that is not again
      a redirect), the promise is rejected with
      "Download failed: HTTP <status>", for that status;
    - when the chain leads to a 200, the promise resolves. *)
Theorem C6_download_redirects
    (url dest : string) (w : world) :
  (forall fuel statusCode loc body,
      fetch E url = Response statusCode (Some loc) body ->
      (300 <= statusCode < 400)%Z -> loc <> "" ->
      files (redirected url dest w) dest = None
      /\ trace (redirected url dest w)
         = (trace w ++ [CreateWriteStream dest; Get url; UnlinkSync dest])%list
      /\ download E (S fuel) url dest w
         = download E fuel loc dest (redirected url dest w))
  /\ (forall fuel w',
         download E fuel url dest w = (Ret tt, w') ->
         exists n final location body,
           follows E n url final
           /\ fetch E final = Response 200 location body
           /\ files w' dest = Some body)
  /\ (forall n final statusCode location body fuel,
         follows E n url final ->
         fetch E final = Response statusCode location body ->
         statusCode <> 200%Z ->
         is_redirect statusCode location = false ->
         (n < fuel)%nat ->
         fst (download E fuel url dest w) = Throw (Download_failed_HTTP statusCode))
  /\ (forall n final location body fuel,
         follows E n url final ->
         fetch E final = Response 200 location body ->
         (n < fuel)%nat ->
         fst (download E fuel url dest w) = Ret tt
         /\ files (snd (download E fuel url dest w)) dest = Some body).
Proof.
  split; [|split; [|split]].
  - intros fuel statusCode loc body Hf Hrange Hne.
    split; [apply set_file_same|]. split.
    + cbn. rewrite <- !app_assoc. reflexivity.
    + assert (Hr : is_redirect statusCode (Some loc) = true).
      { apply is_redirect_true. split; [exact Hrange|]. exists loc. auto. }
      apply (download_redirect _ _ _ _ _ _ _ Hf Hr).
  - intros fuel w'. apply download_resolved.
  - intros n final statusCode location body fuel Hfo Hf Hs Hr Hfuel.
    destruct fuel as [|fuel]; [lia|].
    destruct (download_follows n url final Hfo fuel dest w) as (w1 & Hd); [lia|].
    rewrite Hd, (download_failed _ _ _ _ _ _ _ Hf Hr Hs). reflexivity.
  - intros n final location body fuel Hfo Hf Hfuel.
    destruct fuel as [|fuel]; [lia|].
    destruct (download_follows n url final Hfo fuel dest w) as (w1 & Hd); [lia|].
    rewrite Hd, (download_saved _ _ _ _ _ _ Hf).
    split; [reflexivity | apply set_file_same].
Qed.

End Download.

(** ** What a computation adds to the trace *)

Section Emits.

Variable P : event -> bool.

Lemma emits_ret {A} (a : A) : emits P (ret a).
Proof.
  intros w r w' H. inversion H; subst. exists []. rewrite app_nil_r. auto.
Qed.

Lemma emits_process_exit {A} (c : Z) : emits P (@process_exit A c).
Proof.
  intros w r w' H. inversion H; subst. exists []. rewrite app_nil_r. auto.
Qed.

Lemma emits_throw {A} (e : exn) : emits P (@throw A e).
Proof.
  intros w r w' H. inversion H; subst. exists []. rewrite app_nil_r. auto.
Qed.

Lemma emits_diverge {A} : emits P (@diverge A).
Proof.
  intros w r w' H. inversion H; subst. exists []. rewrite app_nil_r. auto.
Qed.

Lemma emits_stuck {A} : emits P (@stuck A).
Proof.
  intros w r w' H. inversion H; subst. exists []. rewrite app_nil_r. auto.
Qed.

Lemma emits_bind {A B} (m : M A) (k : A -> M B) :
  emits P m -> (forall a, emits P (k a)) -> emits P (bind m k).
Proof.
  intros Hm Hk w r w' H. unfold bind in H.
  destruct (m w) as [ra wa] eqn:Hmw.
  destruct (Hm w ra wa Hmw) as (l1 & Ht1 & Hp1).
  destruct ra as [a|c|e| |].
  - destruct (Hk a wa r w' H) as (l2 & Ht2 & Hp2).
    exists (l1 ++ l2)%list. split.
    + rewrite Ht2, Ht1, app_assoc. reflexivity.
    + rewrite forallb_app, Hp1, Hp2. reflexivity.
  - inversion H; subst. exists l1. auto.
  - inversion H; subst. exists l1. auto.
  - inversion H; subst. exists l1. auto.
  - inversion H; subst. exists l1. auto.
Qed.

Lemma emits_emit (e : event) : P e = true -> emits P (emit e).
Proof.
  intros He w r w' H. inversion H; subst. exists [e]. split; [reflexivity|].
  cbn. rewrite He. reflexivity.
Qed.

Lemma emits_log (m : msg) : P (Log m) = true -> emits P (log m).
Proof. apply emits_emit. Qed.

Lemma emits_read (d : option Data.t) : emits P (read d).
Proof.
  destruct d; [apply emits_ret | apply emits_throw].
Qed.

Lemma emits_request (E : env) (method endpoint : string) (body : option payload) :
  P (Request method endpoint body) = true ->
  emits P (request E method endpoint body).
Proof.
  intros He w r w' H. unfold request in H.
  exists [Request method endpoint body].
  destruct (settles E (requests w)); inversion H; subst; cbn; rewrite He; auto.
Qed.

Lemma emits_sleep (E : env) (ms : Q) :
  P (SetTimeout ms) = true -> emits P (sleep E ms).
Proof.
  intros He w r w' H. inversion H; subst. exists [SetTimeout ms].
  cbn. rewrite He. auto.
Qed.

Lemma emits_while {A S} (deadline : Q) (body : S -> M (step A S)) :
  (forall s, emits P (body s)) ->
  forall fuel s, emits P (while_before fuel deadline body s).
Proof.
  intros Hb fuel. induction fuel as [|fuel IH]; intro s.
  - apply emits_diverge.
  - cbn [while_before]. apply emits_bind.
    + intros w r w' H. inversion H; subst. exists []. rewrite app_nil_r. auto.
    + intro now. destruct (Qltb (inject_Z now) deadline); [|apply emits_ret].
      apply emits_bind; [apply Hb|].
      intros [a|s']; [apply emits_ret | apply IH].
Qed.

End Emits.

Ltac emits_step :=
  match goal with
  | |- emits _ (bind _ _) => apply emits_bind; [|intro]
  | |- emits _ (ret _) => apply emits_ret
  | |- emits _ (process_exit _) => apply emits_process_exit
  | |- emits _ (throw _) => apply emits_throw
  | |- emits _ stuck => apply emits_stuck
  | |- emits _ (read _) => apply emits_read
  | |- emits _ (log _) => apply emits_log; reflexivity
  | |- emits _ (emit _) => apply emits_emit; reflexivity
  | |- emits _ (sleep _ _) => apply emits_sleep; reflexivity
  | |- emits _ (request _ _ _ _) => apply emits_request
  | |- emits _ (if ?b then _ else _) => destruct b
  end.

Lemma deck_endpoint_event (deckId : option string) :
  deck_stage_event deckId (Request "GET" ("/v1/decks/" ++ show deckId) None) = true.
Proof.
  cbn [deck_stage_event]. rewrite !String.eqb_refl. reflexivity.
Qed.

Lemma createDeck_emits (E : env) (prompt : string) (name deckId : option string) :
  emits (deck_stage_event deckId) (createDeck E prompt name).
Proof.
  unfold createDeck. repeat emits_step; reflexivity.
Qed.

Lemma pollDeck_body_emits (E : env) (cfg : config) (deckId : option string) (u : unit) :
  emits (deck_stage_event deckId) (pollDeck_body E cfg deckId u).
Proof.
  unfold pollDeck_body. repeat emits_step; apply deck_endpoint_event.
Qed.

Lemma pollDeckStatus_emits (E : env) (cfg : config) (fuel : nat)
    (deckId : option string) :
  emits (deck_stage_event deckId) (pollDeckStatus E cfg fuel deckId).
Proof.
  unfold pollDeckStatus. emits_step; [emits_step|].
  apply emits_bind.
  { intros w r w' H. inversion H; subst. exists []. rewrite app_nil_r. auto. }
  intro now. apply emits_bind.
  - apply emits_while. apply pollDeck_body_emits.
  - intros [d|]; repeat emits_step.
Qed.

Lemma emits_weaken {A} (P P' : event -> bool) (m : M A) :
  (forall e, P e = true -> P' e = true) -> emits P m -> emits P' m.
Proof.
  intros Hpp Hm w r w' H. destruct (Hm w r w' H) as (l & Ht & Hp).
  exists l. split; [exact Ht|].
  rewrite forallb_forall in *. auto.
Qed.

(** ** No export call in the deck stage *)

Lemma prefix_longer (s t : string) : t <> "" -> prefix (s ++ t) s = false.
Proof.
  intro Ht. induction s as [|c s IH]; cbn.
  - destruct t; [congruence | reflexivity].
  - destruct (Ascii.ascii_dec c c); [exact IH | reflexivity].
Qed.

Lemma deck_stage_no_export (deckId : option string) (e : event) :
  deck_stage_event deckId e = true ->
  export_call deckId e = false /\ download_event e = false.
Proof.
  destruct e as [m|l|l|method endpoint [[prompt name|fmt up]|]|ms|url|d|d|d];
    cbn [deck_stage_event]; try discriminate; intro H;
    (split; [|reflexivity]); try reflexivity.
  - apply andb_true_iff in H as [_ H]. apply String.eqb_eq in H. subst endpoint.
    reflexivity.
  - apply andb_true_iff in H as [_ H]. apply String.eqb_eq in H. subst endpoint.
    cbn [export_call].
    change ("/v1/decks/" ++ show deckId ++ "/export")
      with (("/v1/decks/" ++ show deckId) ++ "/export").
    apply prefix_longer. discriminate.
Qed.

(** ** main *)

Section Main.

Variable E : env.
Variable cfg : config.

Lemma deck_summary_has_no_file (deck completedDeck : Data.t) :
  has_field "file" (deck_summary deck completedDeck) = false.
Proof.
  unfold deck_summary.
  destruct (Data.id deck), (Data.name deck), (Data.slides_count completedDeck);
    reflexivity.
Qed.

Lemma prompt_given :
  prompt_text E cfg <> "" -> negb (truthy (Some (prompt_text E cfg))) = false.
Proof.
  intro H. cbn. apply String.eqb_neq in H. rewrite H. reflexivity.
Qed.

(** When the deck stage does not return a deck, [main] ends there. *)
Lemma main_deck_stage_stops (fuel : nat) (w w1 w2 : world) (deck : Data.t)
    (r : result Data.t) :
  prompt_text E cfg <> "" ->
  createDeck E (prompt_text E cfg) (deckName cfg) w = (Ret deck, w1) ->
  pollDeckStatus E cfg fuel (Data.id deck) w1 = (r, w2) ->
  match r with
  | Ret _ => True
  | Exit c => main E cfg fuel w = (Exit c, w2)
  | Throw e => main E cfg fuel w = (Throw e, w2)
  | Diverge => main E cfg fuel w = (Diverge, w2)
  | Stuck => main E cfg fuel w = (Stuck, w2)
  end.
Proof.
  intros Hp Hc Hd.
  destruct r; trivial; unfold main; cbv zeta; rewrite (prompt_given Hp);
    unfold bind at 1; rewrite Hc; unfold bind at 1; rewrite Hd; reflexivity.
Qed.

(** With [--no-export], [main] ends on the summary of the deck. *)
Lemma main_no_export (fuel : nat) (w w1 w2 : world) (deck completedDeck : Data.t) :
  noExport cfg = true ->
  prompt_text E cfg <> "" ->
  createDeck E (prompt_text E cfg) (deckName cfg) w = (Ret deck, w1) ->
  pollDeckStatus E cfg fuel (Data.id deck) w1 = (Ret completedDeck, w2) ->
  main E cfg fuel w
  = (Ret tt, add_event (ConsoleLog (JSON_line (deck_summary deck completedDeck))) w2).
Proof.
  intros Hno Hp Hc Hd. unfold main. cbv zeta. rewrite (prompt_given Hp).
  unfold bind at 1. rewrite Hc. unfold bind at 1. rewrite Hd, Hno.
  reflexivity.
Qed.

Lemma deck_stage_is_no_export (deckId : option string) (e : event) :
  deck_stage_event deckId e = true -> no_export_event deckId e = true.
Proof.
  destruct e as [m|l|l|method endpoint body|ms|url|d|d|d]; cbn; try discriminate;
    trivial.
Qed.

(** With [--no-export], whatever the run, [main] stays within the deck
    stage, standard error and a summary without [file]. *)
Lemma main_no_export_events (fuel : nat) (w w' : world) (r : result unit) :
  noExport cfg = true ->
  main E cfg fuel w = (r, w') ->
  exists deckId l,
    trace w' = (trace w ++ l)%list /\ forallb (no_export_event deckId) l = true.
Proof.
  intros Hno. unfold main. cbv zeta.
  destruct (negb (truthy (Some (prompt_text E cfg)))).
  - intro H. exists None.
    assert (Hem : emits (no_export_event None)
                    (emit (ConsoleError (Usage_line 1)) ;;
                     emit (ConsoleError (Usage_line 2)) ;;
                     @process_exit unit 1)) by (repeat emits_step).
    apply (Hem w r w' H).
  - unfold bind at 1.
    destruct (createDeck E (prompt_text E cfg) (deckName cfg) w) as [rd w1] eqn:Hc.
    destruct rd as [deck|c|e| |].
    + pose proof (createDeck_emits E _ _ (Data.id deck) w _ _ Hc) as (l1 & Ht1 & Hp1).
      rewrite Hno. intro H.
      assert (Hem : emits (no_export_event (Data.id deck))
                (completedDeck <- pollDeckStatus E cfg fuel (Data.id deck) ;;
                 emit (ConsoleLog (JSON_line (deck_summary deck completedDeck))) ;;
                 ret tt)).
      { apply emits_bind.
        - apply (emits_weaken (deck_stage_event (Data.id deck)));
            [apply deck_stage_is_no_export | apply pollDeckStatus_emits].
        - intro cd. apply emits_bind; [|intro; apply emits_ret].
          apply emits_emit. cbn. rewrite deck_summary_has_no_file. reflexivity. }
      destruct (Hem w1 r w' H) as (l2 & Ht2 & Hp2).
      exists (Data.id deck), (l1 ++ l2)%list. split.
      * rewrite Ht2, Ht1, app_assoc. reflexivity.
      * rewrite forallb_app, Hp2, andb_true_r.
        rewrite forallb_forall in *. intros ev Hev.
        apply deck_stage_is_no_export, Hp1, Hev.
    + intro H; inversion H; subst.
      pose proof (createDeck_emits E _ _ None w _ _ Hc) as (l1 & Ht1 & Hp1).
      exists None, l1. split; [exact Ht1|].
      rewrite forallb_forall in *. intros ev Hev.
      apply deck_stage_is_no_export, Hp1, Hev.
    + intro H; inversion H; subst.
      pose proof (createDeck_emits E _ _ None w _ _ Hc) as (l1 & Ht1 & Hp1).
      exists None, l1. split; [exact Ht1|].
      rewrite forallb_forall in *. intros ev Hev.
      apply deck_stage_is_no_export, Hp1, Hev.
    + intro H; inversion H; subst.
      pose proof (createDeck_emits E _ _ None w _ _ Hc) as (l1 & Ht1 & Hp1).
      exists None, l1. split; [exact Ht1|].
      rewrite forallb_forall in *. intros ev Hev.
      apply deck_stage_is_no_export, Hp1, Hev.
    + intro H; inversion H; subst.
      pose proof (createDeck_emits E _ _ None w _ _ Hc) as (l1 & Ht1 & Hp1).
      exists None, l1. split; [exact Ht1|].
      rewrite forallb_forall in *. intros ev Hev.
      apply deck_stage_is_no_export, Hp1, Hev.
Qed.

Lemma program_of_main (fuel : nat) (w : world) :
  program E cfg fuel w
  = match main E cfg fuel w with
    | (Throw e, w') => (Exit 1, add_event (ConsoleError (Error_line e)) w')
    | other => other
    end.
Proof.
  unfold program. destruct (main E cfg fuel w) as [[u|c|e| |] w']; reflexivity.
Qed.

Lemma no_export_event_spec (deckId : option string) (e : event) :
  no_export_event deckId e = true ->
  export_call deckId e = false
  /\ download_event e = false
  /\ (forall outPath, e <> ConsoleLog (FILE_line outPath))
  /\ (forall j, e = ConsoleLog (JSON_line j) -> has_field "file" j = false).
Proof.
  intro H.
  assert (Hdeck : deck_stage_event deckId e = true ->
                  export_call deckId e = false /\ download_event e = false)
    by apply deck_stage_no_export.
  destruct e as [m|l|l|method endpoint body|ms|url|d|d|d];
    cbn [no_export_event] in H; try (cbn in H; discriminate).
  - repeat split; try discriminate.
  - destruct l as [p|j|n|x]; try (cbn in H; discriminate).
    repeat split; try discriminate.
    intros j' Hj. inversion Hj; subst j'. apply negb_true_iff in H. exact H.
  - repeat split; discriminate.
  - destruct (Hdeck H) as [He Hd]. repeat split; try assumption; discriminate.
  - repeat split; discriminate.
Qed.

(** C9.  With [--no-export]:
    - whatever the run, nothing of the export stage happens: no export
      call, no download, no [FILE:] line, and no JSON line with a [file]
      field;
    - when the deck stage returns the completed deck, the program prints
      one line on standard output, the JSON summary of the deck (id,
      name, slides, url: no [file]), and ends there, with code 0. *)
Theorem C9_no_export_stops_after_deck
    (fuel : nat) (w : world) (skip : noExport cfg = true) :
  (forall r w',
      program E cfg fuel w = (r, w') ->
      exists deckId l,
        trace w' = (trace w ++ l)%list
        /\ forall e, In e l ->
             export_call deckId e = false
             /\ download_event e = false
             /\ (forall outPath, e <> ConsoleLog (FILE_line outPath))
             /\ (forall j, e = ConsoleLog (JSON_line j) -> has_field "file" j = false))
  /\ (forall deck w1 completedDeck w2,
         prompt_text E cfg <> "" ->
         createDeck E (prompt_text E cfg) (deckName cfg) w = (Ret deck, w1) ->
         pollDeckStatus E cfg fuel (Data.id deck) w1 = (Ret completedDeck, w2) ->
         program E cfg fuel w
         = (Ret tt, add_event (ConsoleLog (JSON_line (deck_summary deck completedDeck))) w2)
         /\ has_field "file" (deck_summary deck completedDeck) = false
         /\ exists l, trace w2 = (trace w ++ l)%list
                      /\ forallb (deck_stage_event (Data.id deck)) l = true).
Proof.
  split.
  - intros r w' H. rewrite program_of_main in H.
    destruct (main E cfg fuel w) as [rm wm] eqn:Hm.
    destruct (main_no_export_events fuel w wm rm skip Hm) as (deckId & l & Ht & Hp).
    rewrite forallb_forall in Hp.
    destruct rm as [u|c|e| |]; inversion H; subst; clear H.
    + exists deckId, l. split; [exact Ht|].
      intros ev Hev. apply no_export_event_spec, Hp, Hev.
    + exists deckId, l. split; [exact Ht|].
      intros ev Hev. apply no_export_event_spec, Hp, Hev.
    + exists deckId, (l ++ [ConsoleError (Error_line e)])%list. split.
      * cbn. rewrite Ht, app_assoc. reflexivity.
      * intros ev Hev. apply (no_export_event_spec deckId).
        apply in_app_or in Hev as [Hev|[Hev|[]]]; [apply Hp, Hev | subst ev; reflexivity].
    + exists deckId, l. split; [exact Ht|].
      intros ev Hev. apply no_export_event_spec, Hp, Hev.
    + exists deckId, l. split; [exact Ht|].
      intros ev Hev. apply no_export_event_spec, Hp, Hev.
  - intros deck w1 completedDeck w2 Hp Hc Hd.
    rewrite program_of_main, (main_no_export fuel w w1 w2 deck completedDeck skip Hp Hc Hd).
    split; [reflexivity|]. split; [apply deck_summary_has_no_file|].
    destruct (createDeck_emits E _ _ (Data.id deck) w _ _ Hc) as (l1 & Ht1 & Hp1).
    destruct (pollDeckStatus_emits E cfg fuel (Data.id deck) w1 _ _ Hd) as (l2 & Ht2 & Hp2).
    exists (l1 ++ l2)%list. split.
    + rewrite Ht2, Ht1, app_assoc. reflexivity.
    + rewrite forallb_app, Hp1, Hp2. reflexivity.
Qed.

(** When the deck poll ends the process, no export call has been issued
    and none will be. *)
Lemma main_deck_exit (fuel : nat) (w w1 w2 : world) (deck : Data.t) (c : Z) :
  prompt_text E cfg <> "" ->
  createDeck E (prompt_text E cfg) (deckName cfg) w = (Ret deck, w1) ->
  pollDeckStatus E cfg fuel (Data.id deck) w1 = (Exit c, w2) ->
  program E cfg fuel w = (Exit c, w2)
  /\ exists l, trace w2 = (trace w ++ l)%list
               /\ forall e, In e l -> export_call (Data.id deck) e = false.
Proof.
  intros Hp Hc Hd. split.
  - rewrite program_of_main.
    rewrite (main_deck_stage_stops fuel w w1 w2 deck (Exit c) Hp Hc Hd). reflexivity.
  - destruct (createDeck_emits E _ _ (Data.id deck) w _ _ Hc) as (l1 & Ht1 & Hp1).
    destruct (pollDeckStatus_emits E cfg fuel (Data.id deck) w1 _ _ Hd) as (l2 & Ht2 & Hp2).
    exists (l1 ++ l2)%list. split.
    + rewrite Ht2, Ht1, app_assoc. reflexivity.
    + rewrite forallb_forall in Hp1, Hp2. intros e He.
      apply (deck_stage_no_export (Data.id deck)).
      apply in_app_or in He as [He|He]; auto.
Qed.

End Main.

(** ** A status of "error" *)

(** C4, as the code has it.  On a 200 reply whose status is "error":
    - the deck poll logs "Deck generation failed: <error or unknown>" and
      calls [process.exit(1)], in that very pass;
    - the export poll logs "Export failed: <error or unknown>" and calls
      [process.exit(1)], in that very pass, when the reply has no
      [download_url] present;
    - when the deck poll ends the process, the program ends with the
      same code in the same world, in which no export call was issued. *)
Theorem C4_error_status_is_fatal
    (E : env) (cfg : config) (deckId exportId : option string) (deadline : Q)
    (fuel : nat) (interval : Q) (w : world) (res : Res.t) (d : Data.t)
    (reply : server E (requests w) = Some res)
    (ok : Res.status res = 200%Z)
    (body : Res.data res = Some d)
    (before : (inject_Z (clock w) < deadline)%Q)
    (failed : Data.status d = Some "error") :
  let wd := after_request E "GET" ("/v1/decks/" ++ show deckId) None w in
  let we := after_request E "GET"
              ("/v1/decks/" ++ show deckId ++ "/export?export_id=" ++ show exportId)
              None w in
  while_before (S fuel) deadline (pollDeck_body E cfg deckId) tt w
  = (Exit 1, add_event (Log (Deck_generation_failed (or_unknown (Data.error d)))) wd)
  /\ (~ present (Data.download_url d) ->
      while_before (S fuel) deadline (pollExport_body E cfg deckId exportId) interval w
      = (Exit 1, add_event (Log (Export_failed (or_unknown (Data.error d)))) we))
  /\ (forall fuel0 w0 deck w1 c w2,
         prompt_text E cfg <> "" ->
         createDeck E (prompt_text E cfg) (deckName cfg) w0 = (Ret deck, w1) ->
         pollDeckStatus E cfg fuel0 (Data.id deck) w1 = (Exit c, w2) ->
         program E cfg fuel0 w0 = (Exit c, w2)
         /\ exists l, trace w2 = (trace w0 ++ l)%list
                      /\ forall e, In e l -> export_call (Data.id deck) e = false).
Proof.
  intros wd we. split; [|split].
  - apply while_before_exit; [exact before|].
    apply (pollDeck_body_error E cfg deckId w res reply d ok body failed).
  - intro Hu. apply while_before_exit; [exact before|].
    apply (pollExport_body_error E cfg deckId exportId interval w res reply d ok body);
      [|exact failed].
    unfold export_done. rewrite failed. apply truthy_absent in Hu. rewrite Hu.
    reflexivity.
  - intros fuel0 w0 deck w1 c w2. apply main_deck_exit.
Qed.

(** C4 on a deck reply with status "error" and error "prompt rejected". *)
Lemma C4_error_status_is_fatal_witness :
  let E := Demo.mkenv [Demo.ok Demo.failed_deck] Demo.no_web in
  while_before 1 600000 (pollDeck_body E Demo.cfg Demo.id1) tt Demo.w0
  = (Exit 1,
     add_event (Log (Deck_generation_failed "prompt rejected"))
       (after_request E "GET" "/v1/decks/d3adb33f-0001" None Demo.w0)).
Proof.
  intro E.
  refine (proj1
    (C4_error_status_is_fatal E Demo.cfg Demo.id1 (Some "e1") 600000 0 1%Q
       Demo.w0 (Demo.ok Demo.failed_deck) Demo.failed_deck _ _ _ _ _)).
  - reflexivity.
  - reflexivity.
  - reflexivity.
  - reflexivity.
  - reflexivity.
Defined.

(** C4 as stated fails for the export poll: a reply with status "error"
    that carries a download URL makes the poller return it, with the
    line "Export complete!", and nothing exits. *)
Lemma C4_export_error_with_url_returns :
  let exp := Demo.export "error" 100 (Some "https://cdn.example/deck.pdf") in
  let E := Demo.mkenv [Demo.ok exp] Demo.no_web in
  Data.status exp = Some "error"
  /\ fst (pollExportStatus E Demo.cfg 100 Demo.id1 (Some "e1") Demo.w0) = Ret exp
  /\ trace (snd (pollExportStatus E Demo.cfg 100 Demo.id1 (Some "e1") Demo.w0))
     = [Log Waiting_for_export;
        Request "GET" "/v1/decks/d3adb33f-0001/export?export_id=e1" None;
        Log Export_complete].
Proof.
  intros exp E. repeat split; vm_compute; reflexivity.
Qed.

(** ** Runs *)

(** C6 on a URL that redirects to a 404. *)
Lemma C6_download_redirects_witness :
  let E := Demo.mkenv [] Demo.web in
  fst (download E 5 "https://api.example/dl/2" "./deck.pdf" Demo.w0)
  = Throw (Download_failed_HTTP 404).
Proof.
  intro E.
  refine (proj1 (proj2 (proj2
    (C6_download_redirects E "https://api.example/dl/2" "./deck.pdf" Demo.w0)))
    1%nat "https://cdn.example/gone" 404%Z None "not found" 5%nat _ _ _ _ _).
  - apply follows_redirect with (loc := "https://cdn.example/gone").
    + exists 301%Z, "". split; [reflexivity|]. split; [lia | discriminate].
    + apply follows_here.
  - reflexivity.
  - discriminate.
  - reflexivity.
  - apply le_S, le_S, le_S, le_n.
Defined.

(** A download through two redirects: the file is created three times,
    removed twice, and holds the body of the 200 in the end. *)
Example download_two_redirects :
  let E := Demo.mkenv [] Demo.web in
  let run := download E 5 "https://api.example/dl/1" "./deck.pdf" Demo.w0 in
  fst run = Ret tt
  /\ files (snd run) "./deck.pdf" = Some "%PDF-1.7"
  /\ trace (snd run)
     = [CreateWriteStream "./deck.pdf"; Get "https://api.example/dl/1";
        UnlinkSync "./deck.pdf";
        CreateWriteStream "./deck.pdf"; Get "https://cdn.example/a";
        UnlinkSync "./deck.pdf";
        CreateWriteStream "./deck.pdf"; Get "https://cdn.example/b"].
Proof.
  intros E run. repeat split; vm_compute; reflexivity.
Qed.



(** A poller is stuck as soon as a status request never settles: the
    script has no listener that would end the wait. *)
Lemma pollers_stuck_on_silent_server
    (E : env) (cfg : config) (fuel : nat) (deckId exportId : option string)
    (w : world) :
  (0 < timeout cfg)%Q ->
  settles E (requests w) = Never_settles ->
  fst (pollDeckStatus E cfg (S fuel) deckId w) = Stuck
  /\ fst (pollExportStatus E cfg (S fuel) deckId exportId w) = Stuck.
Proof.
  intros Hpos Hs.
  assert (Hlt : forall m, (inject_Z (clock (add_event (Log m) w))
                           < inject_Z (clock w) + timeout cfg * 1000)%Q).
  { intro m. cbn [clock add_event]. lra. }
  split.
  - rewrite pollDeckStatus_eq.
    rewrite (while_before_stuck _ _ fuel tt _
               (after_request E "GET" ("/v1/decks/" ++ show deckId) None
                  (add_event (Log Waiting_for_deck_generation) w)) (Hlt _));
      [reflexivity|].
    unfold pollDeck_body. exec. cbn [requests add_event]. rewrite Hs. reflexivity.
  - rewrite pollExportStatus_eq.
    rewrite (while_before_stuck _ _ fuel (pollExport cfg) _
               (after_request E "GET"
                  ("/v1/decks/" ++ show deckId ++ "/export?export_id=" ++ show exportId)
                  None (add_event (Log Waiting_for_export) w)) (Hlt _));
      [reflexivity|].
    unfold pollExport_body. exec. cbn [requests add_event]. rewrite Hs. reflexivity.
Qed.

(** The same run, evaluated: two polls, then the time-out. *)
Example deck_poll_times_out :
  let pending := Demo.ok (Demo.deck "generating" 5 1) in
  let E := Demo.mkenv [pending; pending; pending] Demo.no_web in
  let run := pollDeckStatus E Demo.cfg_short 2001 Demo.id1 Demo.w0 in
  fst run = Exit 1
  /\ clock (snd run) = 2240%Z
  /\ trace (snd run)
     = [Log Waiting_for_deck_generation;
        Request "GET" "/v1/decks/d3adb33f-0001" None;
        Log (Deck_status (Some "generating") 1 5 1);
        SetTimeout 1000;
        Request "GET" "/v1/decks/d3adb33f-0001" None;
        Log (Deck_status (Some "generating") 1 5 1);
        SetTimeout 1000;
        Log Timeout_waiting_for_deck_generation].
Proof.
  intros pending E run. repeat split; vm_compute; reflexivity.
Qed.

(** C9 on a deck that is ready at the second poll. *)
Lemma C9_no_export_stops_after_deck_witness :
  let created := Demo.deck "generating" 0 0 in
  let complete := Demo.deck "complete" 5 5 in
  let E := Demo.mkenv
             [Demo.ok created; Demo.ok (Demo.deck "generating" 5 2); Demo.ok complete]
             Demo.no_web in
  let cfg := Demo.cfg_no_export in
  let w1 := snd (createDeck E (prompt_text E cfg) (deckName cfg) Demo.w0) in
  let w2 := snd (pollDeckStatus E cfg 100 Demo.id1 w1) in
  program E cfg 100 Demo.w0
  = (Ret tt, add_event (ConsoleLog (JSON_line (deck_summary created complete))) w2).
Proof.
  intros created complete E cfg w1 w2.
  refine (proj1 (proj2 (C9_no_export_stops_after_deck E cfg 100 Demo.w0 eq_refl)
                   created w1 complete w2 _ _ _)).
  - discriminate.
  - vm_compute. reflexivity.
  - vm_compute. reflexivity.
Defined.

(** Scenario 2, evaluated: [--no-export], the deck ready at the second
    poll.  One JSON line on standard output, exit code 0. *)
Example run_no_export :
  let E := Demo.mkenv
             [Demo.ok (Demo.deck "generating" 0 0);
              Demo.ok (Demo.deck "generating" 5 2);
              Demo.ok (Demo.deck "complete" 5 5)]
             Demo.no_web in
  let run := program E Demo.cfg_no_export 100 Demo.w0 in
  exit_code (fst run) = Some 0%Z
  /\ trace (snd run)
     = [Log Creating_deck;
        Request "POST" "/v1/decks" (Some (DeckPayload "Quarterly update" None));
        Log (Deck_created Demo.id1 (Some "Quarterly") (Some "generating"));
        Log Waiting_for_deck_generation;
        Request "GET" "/v1/decks/d3adb33f-0001" None;
        Log (Deck_status (Some "generating") 2 5 5);
        SetTimeout 5000;
        Request "GET" "/v1/decks/d3adb33f-0001" None;
        Log (Deck_complete 5);
        ConsoleLog (JSON_line [("id", JStr "d3adb33f-0001");
                               ("name", JStr "Quarterly");
                               ("slides", JNum 5);
                               ("url", JStr "https://vibeslides.app/d/d3adb33f-0001")])].
Proof.
  intros E run. split; vm_compute; reflexivity.
Qed.

(** A server that never answers, evaluated: the script is left waiting
    for the reply to its first request, with nothing on standard
    output. *)
Example run_on_silent_server :
  let run := program Demo.silent Demo.cfg 100 Demo.w0 in
  fst run = Stuck
  /\ trace (snd run)
     = [Log Creating_deck;
        Request "POST" "/v1/decks" (Some (DeckPayload "Quarterly update" None))].
Proof.
  intro run. split; vm_compute; reflexivity.
Qed.

(** Scenario 3, evaluated: the third poll of the deck has status
    "error".  Exit code 1; the last line is the deck's error; the only
    requests are the creation and the three polls. *)
Example run_deck_error_on_third_poll :
  let generating := Demo.ok (Demo.deck "generating" 5 1) in
  let E := Demo.mkenv
             [Demo.ok (Demo.deck "generating" 0 0); generating; generating;
              Demo.ok Demo.failed_deck]
             Demo.no_web in
  let run := program E Demo.cfg 100 Demo.w0 in
  exit_code (fst run) = Some 1%Z
  /\ trace (snd run)
     = [Log Creating_deck;
        Request "POST" "/v1/decks" (Some (DeckPayload "Quarterly update" None));
        Log (Deck_created Demo.id1 (Some "Quarterly") (Some "generating"));
        Log Waiting_for_deck_generation;
        Request "GET" "/v1/decks/d3adb33f-0001" None;
        Log (Deck_status (Some "generating") 1 5 5);
        SetTimeout 5000;
        Request "GET" "/v1/decks/d3adb33f-0001" None;
        Log (Deck_status (Some "generating") 1 5 5);
        SetTimeout 5000;
        Request "GET" "/v1/decks/d3adb33f-0001" None;
        Log (Deck_generation_failed "prompt rejected")].
Proof.
  intros generating E run. split; vm_compute; reflexivity.
Qed.

(** Scenario 1, evaluated: default options, an export that reports 10%,
    then 60%, then its URL, and a download through two redirects. *)
Example run_export_pdf :
  let url := Some "https://api.example/dl/1" in
  let E := Demo.mkenv
             [Demo.ok (Demo.deck "generating" 0 0);
              Demo.ok (Demo.deck "complete" 5 5);
              Demo.ok (Demo.export "pending" 0 None);
              Demo.ok (Demo.export "processing" 10 None);
              Demo.unavailable;
              Demo.ok (Demo.export "processing" 60 None);
              Demo.unavailable;
              Demo.ok (Demo.export "processing" 100 url)]
             Demo.web in
  let run := program E Demo.cfg 100 Demo.w0 in
  exit_code (fst run) = Some 0%Z
  /\ files (snd run) "./deck-d3adb33f.pdf" = Some "%PDF-1.7"
  /\ filter (fun e => match e with
                      | Request _ _ _ | SetTimeout _ | ConsoleLog _ => true
                      | _ => false
                      end) (trace (snd run))
     = [Request "POST" "/v1/decks" (Some (DeckPayload "Quarterly update" None));
        Request "GET" "/v1/decks/d3adb33f-0001" None;
        Request "POST" "/v1/decks/d3adb33f-0001/export" (Some (ExportPayload "pdf" false));
        Request "GET" "/v1/decks/d3adb33f-0001/export?export_id=e1" None;
        SetTimeout (mul64 1 1000);
        Request "GET" "/v1/decks/d3adb33f-0001/export?export_id=e1" None;
        SetTimeout (mul64 1 1000);
        Request "GET" "/v1/decks/d3adb33f-0001/export?export_id=e1" None;
        SetTimeout (mul64 (Qmax lit_0_3 (mul64 1 lit_0_3)) 1000);
        Request "GET" "/v1/decks/d3adb33f-0001/export?export_id=e1" None;
        SetTimeout (mul64 (Qmax lit_0_3 (mul64 1 lit_0_3)) 1000);
        Request "GET" "/v1/decks/d3adb33f-0001/export?export_id=e1" None;
        ConsoleLog (FILE_line "./deck-d3adb33f.pdf");
        ConsoleLog (JSON_line [("id", JStr "d3adb33f-0001");
                               ("name", JStr "Quarterly");
                               ("slides", JNum 5);
                               ("format", JStr "pdf");
                               ("file", JStr "./deck-d3adb33f.pdf");
                               ("url", JStr "https://vibeslides.app/d/d3adb33f-0001")])].
Proof.
  intros url E run. repeat split; vm_compute; reflexivity.
Qed.

(** * Further properties of the script *)

(** ** The command line *)

Lemma indexOf_absent (name : string) (args : list string) :
  ~ In name args -> indexOf name args = None.
Proof.
  induction args as [|a rest IH]; intro H; [reflexivity|].
  cbn. destruct (a =? name) eqn:Ha.
  - apply String.eqb_eq in Ha. exfalso. apply H. left. exact Ha.
  - rewrite IH; [reflexivity|]. intro Hin. apply H. right. exact Hin.
Qed.

Lemma indexOf_first (name : string) (before after : list string) :
  ~ In name before ->
  indexOf name (before ++ name :: after) = Some (List.length before).
Proof.
  induction before as [|a rest IH]; intro H; cbn.
  - rewrite String.eqb_refl. reflexivity.
  - destruct (a =? name) eqn:Ha.
    + apply String.eqb_eq in Ha. exfalso. apply H. left. exact Ha.
    + rewrite IH; [reflexivity|]. intro Hin. apply H. right. exact Hin.
Qed.

Lemma splice_at (before removed after : list string) :
  splice (List.length before) (List.length removed) (before ++ removed ++ after)
  = (before ++ after)%list.
Proof.
  unfold splice.
  rewrite firstn_app, firstn_all, Nat.sub_diag, firstn_O, app_nil_r.
  rewrite skipn_app.
  rewrite (skipn_all2 before) by lia.
  replace (List.length before + List.length removed - List.length before)%nat
    with (List.length removed) by lia.
  rewrite skipn_app, skipn_all, Nat.sub_diag. reflexivity.
Qed.

(** X1.  [flag(name)] answers whether [name] is among the arguments and
    takes its first occurrence, and only that one, out of them; without
    the word the arguments are left as they are. *)
Theorem flag_takes_first_occurrence (name : string) (args : list string) :
  (~ In name args -> flag name args = (false, args))
  /\ (forall before after,
         args = (before ++ name :: after)%list -> ~ In name before ->
         flag name args = (true, (before ++ after)%list)).
Proof.
  split.
  - intro H. unfold flag. rewrite (indexOf_absent name args H). reflexivity.
  - intros before after Hargs Hb. subst args. unfold flag.
    rewrite (indexOf_first name before after Hb).
    change (name :: after) with ([name] ++ after)%list.
    change 1%nat with (List.length [name]).
    rewrite splice_at. reflexivity.
Qed.

Lemma flag_takes_first_occurrence_witness :
  flag "--upscale" ["Q3"; "--upscale"; "plan"; "--upscale"]
  = (true, ["Q3"; "plan"; "--upscale"]).
Proof.
  refine (proj2 (flag_takes_first_occurrence "--upscale"
                   ["Q3"; "--upscale"; "plan"; "--upscale"])
            ["Q3"] ["plan"; "--upscale"] _ _).
  - reflexivity.
  - intros [H|[]]. discriminate.
Defined.

(** X2.  [opt(name, def)]: without the word, the default, and the
    arguments as they are; with the word followed by anything, that next
    word as the value (whatever it is), both taken out; with the word in
    last position, undefined - not the default - and the word taken
    out. *)
Theorem opt_takes_next_word (name : string) (def : option string) (args : list string) :
  (~ In name args -> opt name def args = (def, args))
  /\ (forall before value after,
         args = (before ++ name :: value :: after)%list -> ~ In name before ->
         opt name def args = (Some value, (before ++ after)%list))
  /\ (forall before,
         args = (before ++ [name])%list -> ~ In name before ->
         opt name def args = (None, before)).
Proof.
  split; [|split].
  - intro H. unfold opt. rewrite (indexOf_absent name args H). reflexivity.
  - intros before value after Hargs Hb. subst args. unfold opt.
    rewrite (indexOf_first name before _ Hb). f_equal.
    + rewrite nth_error_app2 by lia.
      replace (List.length before + 1 - List.length before)%nat with 1%nat by lia.
      reflexivity.
    + change (name :: value :: after) with ([name; value] ++ after)%list.
      change 2%nat with (List.length [name; value]).
      apply splice_at.
  - intros before Hargs Hb. subst args. unfold opt.
    rewrite (indexOf_first name before _ Hb). f_equal.
    + apply nth_error_None. rewrite length_app. cbn. lia.
    + unfold splice.
      rewrite firstn_app, firstn_all, Nat.sub_diag, firstn_O, app_nil_r.
      rewrite skipn_all2; [apply app_nil_r|]. rewrite length_app. cbn. lia.
Qed.

Lemma opt_takes_next_word_witness :
  opt "--format" (Some "pdf") ["Q3"; "plan"; "--format"] = (None, ["Q3"; "plan"]).
Proof.
  refine (proj2 (proj2 (opt_takes_next_word "--format" (Some "pdf")
                          ["Q3"; "plan"; "--format"]))
            ["Q3"; "plan"] _ _).
  - reflexivity.
  - intros [H|[H|[]]]; discriminate.
Defined.

(** X3.  A command line without any of the ten option words is the prompt,
    word for word, and the options are the defaults: no flag set, pdf,
    the current directory, polls every 5 s and 1 s, time-out 600 s. *)
Theorem parse_plain_prompt (argv : list string) :
  (forall name, In name option_names -> ~ In name argv) ->
  parse argv
  = mkOptions argv false false false None (Some "pdf") (Some ".") None
              (Some "5") (Some "1") (Some "600").
Proof.
  intro H. unfold parse, flag, opt.
  repeat (rewrite indexOf_absent; [|apply H; cbn; tauto]).
  reflexivity.
Qed.

Lemma parse_plain_prompt_witness :
  parse ["Quarterly"; "update"]
  = mkOptions ["Quarterly"; "update"] false false false None (Some "pdf")
              (Some ".") None (Some "5") (Some "1") (Some "600").
Proof.
  refine (parse_plain_prompt ["Quarterly"; "update"] _).
  intros name Hn [H|[H|[]]]; subst name; cbn in Hn;
    repeat (destruct Hn as [Hn|Hn]; [discriminate|]); exact Hn.
Defined.

(** The default command line gives the default configuration. *)
Example parse_default_config :
  config_of (Demo.mkenv [] Demo.no_web) (parse ["Quarterly"; "update"])
  = Some Demo.cfg.
Proof. reflexivity. Qed.

(** ** What the pollers return *)

Lemma bind_Ret_inv {A B} (m : M A) (k : A -> M B) (w w' : world) (b : B) :
  bind m k w = (Ret b, w') ->
  exists a w1, m w = (Ret a, w1) /\ k a w1 = (Ret b, w').
Proof.
  unfold bind. destruct (m w) as [[a|c|e| |] w1]; try discriminate.
  intro H. exists a, w1. split; [reflexivity | exact H].
Qed.

(** A value that the loop returns was returned by a pass that began
    before the deadline, in a world that the loop reached. *)
Lemma while_before_returned {A S} (deadline : Q) (body : S -> M (step A S))
    (fuel : nat) :
  forall (s : S) (w w' : world) (a : A),
    while_before fuel deadline body s w = (Ret (Some a), w') ->
    exists sk wk,
      polls deadline body s w sk wk
      /\ (inject_Z (clock wk) < deadline)%Q
      /\ body sk wk = (Ret (Return a), w').
Proof.
  induction fuel as [|fuel IH]; intros s w w' a H; [discriminate|].
  cbn [while_before] in H. unfold bind, Date_now in H. cbn beta iota in H.
  destruct (Qltb (inject_Z (clock w)) deadline) eqn:Hlt; [|discriminate].
  apply Qltb_true in Hlt.
  destruct (body s w) as [[[a0|s1]|c|e| |] w1] eqn:Hb; try discriminate.
  - inversion H; subst. exists s, w. split; [constructor|]. auto.
  - destruct (IH s1 w1 w' a H) as (sk & wk & Hp & Hk & Hbk).
    exists sk, wk. split; [|auto].
    apply (polls_next deadline body s s1 sk w w1 wk Hlt Hb Hp).
Qed.

Lemma pollDeck_body_returned (E : env) (cfg : config) (deckId : option string)
    (u : unit) (w w' : world) (d : Data.t) :
  pollDeck_body E cfg deckId u w = (Ret (Return d), w') ->
  deck_ready d = true
  /\ (exists res, server E (requests w) = Some res
                  /\ Res.status res = 200%Z /\ Res.data res = Some d)
  /\ w' = add_event (Log (Deck_complete (default0 (Data.slides_count d))))
            (after_request E "GET" ("/v1/decks/" ++ show deckId) None w).
Proof.
  unfold pollDeck_body. exec.
  destruct (settles E (requests w)) as [res| |] eqn:Hs; [|discriminate ..].
  destruct (Res.status res =? 200)%Z eqn:Hst; [|discriminate]. cbn.
  apply Z.eqb_eq in Hst.
  destruct (Res.data res) as [deck|] eqn:Hd; [|discriminate]. cbn.
  destruct (strict_eq (Data.status deck) "error"); [discriminate|].
  destruct (strict_eq (Data.status deck) "complete" &&
            (default0 (Data.slides_count deck) >? 0)%Z &&
            (default0 (Data.slides_complete deck) >=?
             default0 (Data.slides_count deck))%Z) eqn:Hr.
  - intro H. inversion H; subst. split; [exact Hr|]. split; [|reflexivity].
    exists res. unfold server. rewrite Hs. auto.
  - destruct (strict_eq (Data.status deck) "complete"); discriminate.
Qed.

Lemma polls_trace {A S} (deadline : Q) (body : S -> M (step A S))
    (P : event -> bool) :
  (forall s, emits P (body s)) ->
  forall s w s' w',
    polls deadline body s w s' w' ->
    exists l, trace w' = (trace w ++ l)%list /\ forallb P l = true.
Proof.
  intros Hb s w s' w' Hp.
  induction Hp as [s w | s s1 s2 w w1 w2 Hlt Hbody Hp IH].
  - exists []. rewrite app_nil_r. auto.
  - destruct (Hb s w _ _ Hbody) as (l1 & Ht1 & Hp1).
    destruct IH as (l2 & Ht2 & Hp2).
    exists (l1 ++ l2)%list. split.
    + rewrite Ht2, Ht1, app_assoc. reflexivity.
    + rewrite forallb_app, Hp1, Hp2. reflexivity.
Qed.

(** X4.  Whatever the server answers and however many polls it takes, a
    deck that [pollDeckStatus] returns is complete, has slides, and has
    them all rendered; it is the body of a 200 reply, and the last line
    logged is "Deck complete: <n> slides" with its slide count. *)
Theorem pollDeckStatus_returns_ready_deck
    (E : env) (cfg : config) (fuel : nat) (deckId : option string)
    (w w' : world) (deck : Data.t) :
  pollDeckStatus E cfg fuel deckId w = (Ret deck, w') ->
  Data.status deck = Some "complete"
  /\ (default0 (Data.slides_count deck) > 0)%Z
  /\ (default0 (Data.slides_complete deck) >= default0 (Data.slides_count deck))%Z
  /\ (exists k res, server E k = Some res /\ Res.status res = 200%Z
                    /\ Res.data res = Some deck)
  /\ (exists l, trace w'
                = (trace w ++ l
                   ++ [Log (Deck_complete (default0 (Data.slides_count deck)))])%list
                /\ forallb (deck_stage_event deckId) l = true).
Proof.
  intro H. rewrite pollDeckStatus_eq in H.
  destruct (while_before _ _ _ _ _) as [[[d|]|c|e| |] w1] eqn:Hloop;
    try discriminate.
  cbn in H. inversion H; subst d w1. clear H.
  apply while_before_returned in Hloop as (sk & wk & Hp & Hlt & Hb).
  destruct (polls_trace _ _ (deck_stage_event deckId)
              (pollDeck_body_emits E cfg deckId) _ _ _ _ Hp) as (l & Ht & Hl).
  apply pollDeck_body_returned in Hb as (Hr & (res & Hs & Hok & Hd) & Hw).
  apply deck_ready_true in Hr as (H1 & H2 & H3).
  repeat split; trivial.
  - exists (requests wk), res. auto.
  - exists ([Log Waiting_for_deck_generation] ++ l
            ++ [Request "GET" ("/v1/decks/" ++ show deckId) None])%list.
    split.
    + subst w'. cbn. rewrite Ht. cbn. rewrite <- !app_assoc. reflexivity.
    + rewrite !forallb_app, Hl. cbn. rewrite !String.eqb_refl. reflexivity.
Qed.

Lemma pollDeckStatus_returns_ready_deck_witness :
  let E := Demo.mkenv [Demo.ok (Demo.deck "generating" 5 2);
                       Demo.ok (Demo.deck "complete" 5 4);
                       Demo.ok (Demo.deck "complete" 5 5)] Demo.no_web in
  let deck := Demo.deck "complete" 5 5 in
  Data.status deck = Some "complete"
  /\ (default0 (Data.slides_count deck) > 0)%Z
  /\ (default0 (Data.slides_complete deck) >= default0 (Data.slides_count deck))%Z
  /\ (exists k res, server E k = Some res /\ Res.status res = 200%Z
                    /\ Res.data res = Some deck)
  /\ (exists l, trace (snd (pollDeckStatus E Demo.cfg 100 Demo.id1 Demo.w0))
                = (trace Demo.w0 ++ l
                   ++ [Log (Deck_complete (default0 (Data.slides_count deck)))])%list
                /\ forallb (deck_stage_event Demo.id1) l = true).
Proof.
  intros E deck.
  refine (pollDeckStatus_returns_ready_deck E Demo.cfg 100 Demo.id1 Demo.w0
            (snd (pollDeckStatus E Demo.cfg 100 Demo.id1 Demo.w0)) deck _).
  vm_compute. reflexivity.
Defined.

Lemma pollExport_body_emits (E : env) (cfg : config) (deckId exportId : option string)
    (interval : Q) :
  emits (export_poll_event deckId exportId)
        (pollExport_body E cfg deckId exportId interval).
Proof.
  unfold pollExport_body. repeat emits_step.
  all: cbn [export_poll_event]; rewrite !String.eqb_refl; reflexivity.
Qed.

Lemma pollExport_body_returned (E : env) (cfg : config)
    (deckId exportId : option string) (interval : Q) (w w' : world) (exp : Data.t) :
  pollExport_body E cfg deckId exportId interval w = (Ret (Return exp), w') ->
  export_done exp = true
  /\ (exists res, server E (requests w) = Some res
                  /\ Res.status res = 200%Z /\ Res.data res = Some exp)
  /\ w' = add_event (Log Export_complete)
            (after_request E "GET"
               ("/v1/decks/" ++ show deckId ++ "/export?export_id=" ++ show exportId)
               None w).
Proof.
  unfold pollExport_body. exec.
  destruct (settles E (requests w)) as [res| |] eqn:Hs; [|discriminate ..].
  destruct (Res.status res =? 200)%Z eqn:Hst; [|discriminate]. cbn.
  apply Z.eqb_eq in Hst.
  destruct (Res.data res) as [e|] eqn:Hd; [|discriminate]. cbn.
  destruct (strict_eq (Data.status e) "complete" || truthy (Data.download_url e))
    eqn:Hdone.
  - intro H. inversion H; subst. split; [exact Hdone|]. split; [|reflexivity].
    exists res. unfold server. rewrite Hs. auto.
  - destruct (strict_eq (Data.status e) "error"); discriminate.
Qed.

(** X5.  An export that [pollExportStatus] returns is the body of a 200
    reply and has status "complete" or a download URL - one of the two,
    not necessarily the URL - and the last line logged is
    "Export complete!". *)
Theorem pollExportStatus_returns_done_export
    (E : env) (cfg : config) (fuel : nat) (deckId exportId : option string)
    (w w' : world) (exp : Data.t) :
  pollExportStatus E cfg fuel deckId exportId w = (Ret exp, w') ->
  (Data.status exp = Some "complete" \/ present (Data.download_url exp))
  /\ (exists k res, server E k = Some res /\ Res.status res = 200%Z
                    /\ Res.data res = Some exp)
  /\ (exists l, trace w' = (trace w ++ l ++ [Log Export_complete])%list
                /\ forallb (export_poll_event deckId exportId) l = true).
Proof.
  intro H. rewrite pollExportStatus_eq in H.
  destruct (while_before _ _ _ _ _) as [[[d|]|c|e| |] w1] eqn:Hloop;
    try discriminate.
  cbn in H. inversion H; subst d w1. clear H.
  apply while_before_returned in Hloop as (sk & wk & Hp & Hlt & Hb).
  destruct (polls_trace _ _ (export_poll_event deckId exportId)
              (pollExport_body_emits E cfg deckId exportId) _ _ _ _ Hp)
    as (l & Ht & Hl).
  apply pollExport_body_returned in Hb as (Hr & (res & Hs & Hok & Hd) & Hw).
  split; [apply export_done_true; exact Hr|]. split.
  - exists (requests wk), res. auto.
  - exists ([Log Waiting_for_export] ++ l
            ++ [Request "GET" ("/v1/decks/" ++ show deckId
                               ++ "/export?export_id=" ++ show exportId) None])%list.
    split.
    + subst w'. cbn. rewrite Ht. cbn. rewrite <- !app_assoc. reflexivity.
    + rewrite !forallb_app, Hl. cbn. rewrite !String.eqb_refl. reflexivity.
Qed.

Lemma pollExportStatus_returns_done_export_witness :
  let exp := Demo.export "complete" 100 None in
  let E := Demo.mkenv [Demo.ok (Demo.export "processing" 40 None); Demo.unavailable;
                       Demo.ok exp] Demo.no_web in
  let run := pollExportStatus E Demo.cfg 100 Demo.id1 (Some "e1") Demo.w0 in
  (Data.status exp = Some "complete" \/ present (Data.download_url exp))
  /\ (exists k res, server E k = Some res /\ Res.status res = 200%Z
                    /\ Res.data res = Some exp)
  /\ (exists l, trace (snd run) = (trace Demo.w0 ++ l ++ [Log Export_complete])%list
                /\ forallb (export_poll_event Demo.id1 (Some "e1")) l = true).
Proof.
  intros exp E run.
  refine (pollExportStatus_returns_done_export E Demo.cfg 100 Demo.id1 (Some "e1")
            Demo.w0 (snd run) exp _).
  vm_compute. reflexivity.
Defined.

(** ** Pollers that cannot succeed *)

(** X6.  With a time-out of zero or less, neither poller sends a single
    request: it logs that it waits, then that it timed out, and calls
    [process.exit(1)]. *)
Theorem pollers_without_time
    (E : env) (cfg : config) (fuel : nat) (deckId exportId : option string)
    (w : world) :
  (timeout cfg <= 0)%Q ->
  pollDeckStatus E cfg (S fuel) deckId w
  = (Exit 1, add_event (Log Timeout_waiting_for_deck_generation)
               (add_event (Log Waiting_for_deck_generation) w))
  /\ pollExportStatus E cfg (S fuel) deckId exportId w
     = (Exit 1, add_event (Log Timeout_waiting_for_export)
                  (add_event (Log Waiting_for_export) w)).
Proof.
  intro H.
  assert (Hd : forall m, (inject_Z (clock w) + timeout cfg * 1000
                          <= inject_Z (clock (add_event (Log m) w)))%Q).
  { intro m. cbn [clock add_event]. lra. }
  split.
  - rewrite pollDeckStatus_eq, while_before_expired; [reflexivity | apply Hd].
  - rewrite pollExportStatus_eq, while_before_expired; [reflexivity | apply Hd].
Qed.

Lemma pollers_without_time_witness :
  let cfg := mkConfig ["Q3"] false false false None "pdf" "." None 5 1 0 in
  let E := Demo.mkenv [Demo.ok (Demo.deck "complete" 5 5)] Demo.no_web in
  pollDeckStatus E cfg 1 Demo.id1 Demo.w0
  = (Exit 1, add_event (Log Timeout_waiting_for_deck_generation)
               (add_event (Log Waiting_for_deck_generation) Demo.w0))
  /\ pollExportStatus E cfg 1 Demo.id1 (Some "e1") Demo.w0
     = (Exit 1, add_event (Log Timeout_waiting_for_export)
                  (add_event (Log Waiting_for_export) Demo.w0)).
Proof.
  intros cfg E.
  refine (pollers_without_time E cfg 0 Demo.id1 (Some "e1") Demo.w0 _).
  vm_compute. discriminate.
Defined.





(** ** download, further *)

Section DownloadMore.

Variable E : env.

Lemma set_file_other (dest p : string) (c : option string) (w : world) :
  p <> dest -> files (set_file dest c w) p = files w p.
Proof.
  intro H. cbn. apply String.eqb_neq in H. rewrite H. reflexivity.
Qed.

(** X8.  Whatever the web answers and however the call ends, [download]
    leaves every file other than its destination as it was. *)
Theorem download_touches_only_dest (fuel : nat) :
  forall (url dest : string) (w : world) (p : string),
    p <> dest ->
    files (snd (download E fuel url dest w)) p = files w p.
Proof.
  induction fuel as [|fuel IH]; intros url dest w p Hp.
  - reflexivity.
  - assert (Hopened : files (opened url dest w) p = files w p).
    { unfold opened. cbn [files add_event].
      rewrite set_file_other by exact Hp. reflexivity. }
    destruct (fetch E url) as [| |statusCode location body|partial|partial] eqn:Hf.
    + rewrite (download_bad_url E _ _ _ _ Hf). reflexivity.
    + rewrite (download_net_error E _ _ _ _ Hf). exact Hopened.
    + destruct (is_redirect statusCode location) eqn:Hr.
      * rewrite (download_redirect E _ _ _ _ _ _ _ Hf Hr).
        rewrite (IH (show location) dest (redirected url dest w) p Hp).
        unfold redirected. rewrite set_file_other by exact Hp.
        cbn [files add_event]. exact Hopened.
      * destruct (Z.eq_dec statusCode 200) as [Heq|Hne].
        -- subst statusCode. rewrite (download_saved E _ _ _ _ _ _ Hf). cbn [snd].
           rewrite set_file_other by exact Hp. exact Hopened.
        -- rewrite (download_failed E _ _ _ _ _ _ _ Hf Hr Hne). exact Hopened.
    + rewrite (download_broken E _ _ _ _ _ Hf). cbn [snd].
      rewrite set_file_other by exact Hp. exact Hopened.
    + rewrite (download_unfinished E _ _ _ _ _ Hf). cbn [snd].
      rewrite set_file_other by exact Hp. exact Hopened.
Qed.




(** X10.  [download] has no bound on the redirects it follows: on a URL
    from which every redirect leads to another one, it never settles
    (whatever the fuel, it runs out of it). *)
Theorem download_endless_redirects (fuel : nat) :
  forall (url dest : string) (w : world),
    endless E url ->
    fst (download E fuel url dest w) = Diverge.
Proof.
  induction fuel as [|fuel IH]; intros url dest w Hend; [reflexivity|].
  destruct (Hend 0%nat url (follows_here E url))
    as (loc & statusCode & body & Hf & Hrange & Hne).
  assert (Hr : is_redirect statusCode (Some loc) = true).
  { apply is_redirect_true. split; [exact Hrange|]. exists loc. auto. }
  rewrite (download_redirect E _ _ _ _ _ _ _ Hf Hr). cbn [show].
  apply IH. intros n final Hfo. apply (Hend (S n) final).
  apply follows_redirect with (loc := loc); [|exact Hfo].
  exists statusCode, body. auto.
Qed.

End DownloadMore.


Lemma download_endless_redirects_witness :
  let E := Demo.mkenv [] loop_web in
  fst (download E 1000 "https://api.example/dl/1" "./deck.pdf" Demo.w0) = Diverge.
Proof.
  intro E.
  refine (download_endless_redirects E 1000 "https://api.example/dl/1"
            "./deck.pdf" Demo.w0 _).
  intros n final _. exists "https://cdn.example/loop", 302%Z, "".
  split; [reflexivity|]. split; [lia | discriminate].
Defined.

(** ** The stages of main *)

Section MainStages.

Variable E : env.
Variable cfg : config.

Lemma main_eq (fuel : nat) :
  main E cfg fuel
  = if negb (truthy (Some (prompt_text E cfg))) then
      emit (ConsoleError (Usage_line 1)) ;;
      emit (ConsoleError (Usage_line 2)) ;;
      process_exit 1
    else
      deck <- createDeck E (prompt_text E cfg) (deckName cfg) ;;
      completedDeck <- pollDeckStatus E cfg fuel (Data.id deck) ;;
      after_deck E cfg fuel deck completedDeck.
Proof. reflexivity. Qed.

(** The deck poll, when it returns: the deck is ready and the line
    "Deck complete" closes a trace of deck-stage events. *)
Lemma pollDeckStatus_returned (fuel : nat) (deckId : option string)
    (w w' : world) (deck : Data.t) :
  pollDeckStatus E cfg fuel deckId w = (Ret deck, w') ->
  deck_ready deck = true
  /\ exists l, trace w'
               = (trace w ++ l
                  ++ [Log (Deck_complete (default0 (Data.slides_count deck)))])%list
               /\ forallb (deck_stage_event deckId) l = true.
Proof.
  intro H. rewrite pollDeckStatus_eq in H.
  destruct (while_before _ _ _ _ _) as [[[d|]|c|e| |] w1] eqn:Hloop;
    try discriminate.
  cbn in H. inversion H; subst d w1. clear H.
  apply while_before_returned in Hloop as (sk & wk & Hp & Hlt & Hb).
  destruct (polls_trace _ _ (deck_stage_event deckId)
              (pollDeck_body_emits E cfg deckId) _ _ _ _ Hp) as (l & Ht & Hl).
  apply pollDeck_body_returned in Hb as (Hr & _ & Hw).
  split; [exact Hr|].
  exists ([Log Waiting_for_deck_generation] ++ l
          ++ [Request "GET" ("/v1/decks/" ++ show deckId) None])%list.
  split.
  - subst w'. cbn. rewrite Ht. cbn. rewrite <- !app_assoc. reflexivity.
  - rewrite !forallb_app, Hl. cbn. rewrite !String.eqb_refl. reflexivity.
Qed.

(** A run of [main] either ended before the deck poll returned, having
    done nothing but the deck stage, or went through [after_deck]. *)
Lemma main_cases (fuel : nat) (w w' : world) (r : result unit) :
  main E cfg fuel w = (r, w') ->
  (r <> Ret tt
   /\ exists deckId l, trace w' = (trace w ++ l)%list
                       /\ forallb (early_event deckId) l = true)
  \/ (exists deck completedDeck w1 w2,
         prompt_text E cfg <> ""
         /\ createDeck E (prompt_text E cfg) (deckName cfg) w = (Ret deck, w1)
         /\ pollDeckStatus E cfg fuel (Data.id deck) w1 = (Ret completedDeck, w2)
         /\ after_deck E cfg fuel deck completedDeck w2 = (r, w')).
Proof.
  rewrite main_eq.
  destruct (truthy (Some (prompt_text E cfg))) eqn:Hp; cbn [negb].
  - assert (Hne : prompt_text E cfg <> "").
    { apply truthy_present in Hp as (s & Hs & Hn). congruence. }
    unfold bind at 1.
    destruct (createDeck E (prompt_text E cfg) (deckName cfg) w) as [rd w1] eqn:Hc.
    assert (Hearly : forall deckId e, deck_stage_event deckId e = true ->
                                      early_event deckId e = true).
    { intros deckId e. destruct e as [m|l|l|? ? ?|?|?|?|?|?]; cbn; auto;
        discriminate. }
    destruct rd as [deck|c|e| |].
    + unfold bind at 1.
      destruct (pollDeckStatus E cfg fuel (Data.id deck) w1) as [rp w2] eqn:Hd.
      destruct (createDeck_emits E _ _ (Data.id deck) w _ _ Hc) as (l1 & Ht1 & Hp1).
      destruct (pollDeckStatus_emits E cfg fuel (Data.id deck) w1 _ _ Hd)
        as (l2 & Ht2 & Hp2).
      assert (Hstop : exists deckId l, trace w2 = (trace w ++ l)%list
                                       /\ forallb (early_event deckId) l = true).
      { exists (Data.id deck), (l1 ++ l2)%list. split.
        - rewrite Ht2, Ht1, app_assoc. reflexivity.
        - rewrite forallb_forall in *. intros ev Hev.
          apply Hearly. apply in_app_or in Hev as [Hev|Hev]; auto. }
      destruct rp as [cd|c|e| |];
        [|intro H; inversion H; subst; left; split; [discriminate | exact Hstop] ..].
      intro H. right. exists deck, cd, w1, w2. auto.
    + intro H. inversion H; subst. left. split; [discriminate|].
      destruct (createDeck_emits E _ _ None w _ _ Hc) as (l1 & Ht1 & Hp1).
      exists None, l1. split; [exact Ht1|].
      rewrite forallb_forall in *. auto.
    + intro H. inversion H; subst. left. split; [discriminate|].
      destruct (createDeck_emits E _ _ None w _ _ Hc) as (l1 & Ht1 & Hp1).
      exists None, l1. split; [exact Ht1|].
      rewrite forallb_forall in *. auto.
    + intro H. inversion H; subst. left. split; [discriminate|].
      destruct (createDeck_emits E _ _ None w _ _ Hc) as (l1 & Ht1 & Hp1).
      exists None, l1. split; [exact Ht1|].
      rewrite forallb_forall in *. auto.
    + intro H. inversion H; subst. left. split; [discriminate|].
      destruct (createDeck_emits E _ _ None w _ _ Hc) as (l1 & Ht1 & Hp1).
      exists None, l1. split; [exact Ht1|].
      rewrite forallb_forall in *. auto.
  - intro H. left. inversion H; subst. split; [discriminate|].
    exists None, [ConsoleError (Usage_line 1); ConsoleError (Usage_line 2)].
    split; [|reflexivity]. cbn. rewrite <- app_assoc. reflexivity.
Qed.

End MainStages.

(** ** What comes before what *)

Lemma after_prefix {X} (P : X -> bool) (pre rest before after : list X) (e : X) :
  forallb (fun x => negb (P x)) pre = true ->
  P e = true ->
  (before ++ e :: after = pre ++ rest)%list ->
  exists mid, before = (pre ++ mid)%list.
Proof.
  revert before. induction pre as [|x pre IH]; intros before Hpre He Heq.
  - exists before. reflexivity.
  - cbn in Hpre. apply andb_true_iff in Hpre as [Hx Hpre].
    destruct before as [|b before]; cbn in Heq; inversion Heq; subst.
    + rewrite He in Hx. discriminate.
    + destruct (IH before Hpre He H1) as (mid & Hmid).
      exists mid. cbn. rewrite Hmid. reflexivity.
Qed.

Lemma not_in_prefix {X} (P : X -> bool) (l before after : list X) (e : X) :
  forallb (fun x => negb (P x)) l = true ->
  P e = true ->
  l <> (before ++ e :: after)%list.
Proof.
  intros Hl He Heq. rewrite forallb_forall in Hl.
  assert (Hin : In e l) by (rewrite Heq; apply in_elt).
  apply Hl in Hin. rewrite He in Hin. discriminate.
Qed.

Lemma split_snoc {X} (l before after : list X) (x e : X) :
  (before ++ e :: after = l ++ [x])%list ->
  (after = [] /\ e = x /\ before = l)
  \/ exists after', after = (after' ++ [x])%list /\ l = (before ++ e :: after')%list.
Proof.
  intro H. destruct after as [|a after].
  - left. apply app_inj_tail in H as [H1 H2]. auto.
  - right. destruct (@exists_last _ (a :: after)) as (after' & y & Ha);
      [discriminate|].
    rewrite Ha in H. rewrite app_comm_cons, app_assoc in H.
    apply app_inj_tail in H as [H1 H2]. subst y.
    exists after'. split; [exact Ha | symmetry; exact H1].
Qed.

Section Order.

Variable E : env.
Variable cfg : config.

Lemma emits_set_file (P : event -> bool) (dest : string) (c : option string) :
  emits P (fun w => (Ret tt, set_file dest c w)).
Proof.
  intros w r w' H. inversion H; subst. exists []. cbn. rewrite app_nil_r. auto.
Qed.

Lemma download_emits (fuel : nat) :
  forall url dest, emits download_event (download E fuel url dest).
Proof.
  induction fuel as [|fuel IH]; intros url dest; cbn [download].
  - apply emits_diverge.
  - unfold createWriteStream, unlinkSync, pipe.
    destruct (fetch E url) as [| |statusCode location body|partial|partial].
    + apply emits_throw.
    + repeat emits_step. apply emits_set_file.
    + repeat emits_step; try apply emits_set_file. apply IH.
    + repeat emits_step; apply emits_set_file.
    + repeat emits_step; apply emits_set_file.
Qed.

Lemma statSync_size_emits (P : event -> bool) (p : string) :
  emits P (statSync_size p).
Proof.
  intros w r w' H. unfold statSync_size in H.
  exists []. rewrite app_nil_r.
  destruct (files w p); inversion H; subst; auto.
Qed.

Lemma startExport_emits (deckId : option string) (fmt : string) (up : bool) :
  emits not_download (startExport E deckId fmt up).
Proof.
  unfold startExport. repeat emits_step; reflexivity.
Qed.

Lemma export_poll_not_download (deckId exportId : option string) (e : event) :
  export_poll_event deckId exportId e = true -> not_download e = true.
Proof.
  destruct e as [m|l|l|? ? ?|?|?|?|?|?]; cbn; auto; discriminate.
Qed.

Lemma pollExportStatus_emits (fuel : nat) (deckId exportId : option string) :
  emits (export_poll_event deckId exportId)
        (pollExportStatus E cfg fuel deckId exportId).
Proof.
  unfold pollExportStatus. emits_step; [emits_step|].
  apply emits_bind.
  { intros w r w' H. inversion H; subst. exists []. rewrite app_nil_r. auto. }
  intro now. apply emits_bind.
  - apply emits_while. apply pollExport_body_emits.
  - intros [d|]; repeat emits_step.
Qed.

Lemma pollExportStatus_returned (fuel : nat) (deckId exportId : option string)
    (w w' : world) (exp : Data.t) :
  pollExportStatus E cfg fuel deckId exportId w = (Ret exp, w') ->
  export_done exp = true
  /\ exists l, trace w' = (trace w ++ l ++ [Log Export_complete])%list
               /\ forallb (export_poll_event deckId exportId) l = true.
Proof.
  intro H. rewrite pollExportStatus_eq in H.
  destruct (while_before _ _ _ _ _) as [[[d|]|c|e| |] w1] eqn:Hloop;
    try discriminate.
  cbn in H. inversion H; subst d w1. clear H.
  apply while_before_returned in Hloop as (sk & wk & Hp & Hlt & Hb).
  destruct (polls_trace _ _ (export_poll_event deckId exportId)
              (pollExport_body_emits E cfg deckId exportId) _ _ _ _ Hp)
    as (l & Ht & Hl).
  apply pollExport_body_returned in Hb as (Hr & _ & Hw).
  split; [exact Hr|].
  exists ([Log Waiting_for_export] ++ l
          ++ [Request "GET" ("/v1/decks/" ++ show deckId
                             ++ "/export?export_id=" ++ show exportId) None])%list.
  split.
  - subst w'. cbn. rewrite Ht. cbn. rewrite <- !app_assoc. reflexivity.
  - rewrite !forallb_app, Hl. cbn. rewrite !String.eqb_refl. reflexivity.
Qed.

Lemma finish_export_emits (fuel : nat) (deck cd exp : Data.t) :
  emits any_event (finish_export E cfg fuel deck cd exp).
Proof.
  unfold finish_export.
  destruct (negb (truthy (Data.download_url exp))); [repeat emits_step|].
  apply emits_bind.
  { destruct (truthy (filename cfg)); [apply emits_ret|].
    destruct (Data.id deck); [apply emits_ret | apply emits_throw]. }
  intro outName. repeat emits_step.
  - apply (emits_weaken download_event); [reflexivity | apply download_emits].
  - apply statSync_size_emits.
Qed.

(** Once the deck is there: nothing of the download happens before the
    export poll has logged "Export complete!". *)
Lemma after_deck_order (fuel : nat) (deck cd : Data.t) (w w' : world)
    (r : result unit) :
  after_deck E cfg fuel deck cd w = (r, w') ->
  exists l, trace w' = (trace w ++ l)%list
            /\ forall before e after,
                 l = (before ++ e :: after)%list ->
                 download_event e = true ->
                 In (Log Export_complete) before.
Proof.
  unfold after_deck. destruct (noExport cfg).
  { intro H. inversion H; subst. eexists. split; [reflexivity|].
    intros before e after Heq He. exfalso.
    refine (not_in_prefix download_event _ before after e _ He Heq). reflexivity. }
  unfold export_stage. unfold bind at 1.
  destruct (startExport E (Data.id deck) (format cfg) (upscale cfg) w)
    as [rs w3] eqn:Hs.
  destruct (startExport_emits _ _ _ w _ _ Hs) as (ls & Hts & Hps).
  assert (Hstop : forall l', forallb not_download l' = true ->
            forall before e after,
              l' = (before ++ e :: after)%list -> download_event e = true ->
              In (Log Export_complete) before).
  { intros l' Hl' before e after Heq He. exfalso.
    apply (not_in_prefix download_event l' before after e); assumption. }
  destruct rs as [job|c|e| |];
    [| intro H; inversion H; subst; exists ls; split; [exact Hts | apply Hstop, Hps] ..].
  unfold bind at 1.
  destruct (pollExportStatus E cfg fuel (Data.id deck) (Data.export_id job) w3)
    as [rp w4] eqn:Hp.
  destruct (pollExportStatus_emits fuel _ _ w3 _ _ Hp) as (lp & Htp & Hpp).
  assert (Hlp : forallb not_download (ls ++ lp) = true).
  { rewrite forallb_app, Hps. cbn. rewrite forallb_forall in *.
    intros ev Hev. eapply export_poll_not_download, Hpp, Hev. }
  destruct rp as [exp|c|e| |];
    [| intro H; inversion H; subst; exists (ls ++ lp)%list;
       (split; [rewrite Htp, Hts, app_assoc; reflexivity | apply Hstop, Hlp]) ..].
  intro H.
  destruct (finish_export_emits fuel deck cd exp w4 r w' H) as (lf & Htf & _).
  exists ((ls ++ lp) ++ lf)%list. split.
  - rewrite Htf, Htp, Hts, !app_assoc. reflexivity.
  - intros before e after Heq He.
    destruct (after_prefix download_event (ls ++ lp) lf before after e Hlp He
                (eq_sym Heq)) as (mid & Hmid).
    subst before. apply in_or_app. left. apply in_or_app. right.
    destruct (pollExportStatus_returned fuel _ _ w3 w4 exp Hp) as (_ & l & Ht & _).
    rewrite Htp in Ht. apply app_inv_head in Ht. rewrite Ht.
    apply in_or_app. right. left. reflexivity.
Qed.

Lemma early_event_harmless (deckId : option string) (e : event) :
  early_event deckId e = true ->
  not_export_start e = true /\ not_download e = true.
Proof.
  destruct e as [m|l|l|method endpoint [[p n|f u]|]|?|?|?|?|?]; cbn; auto;
    discriminate.
Qed.

Lemma main_in_order (fuel : nat) (w w' : world) (r : result unit) :
  main E cfg fuel w = (r, w') ->
  exists l, trace w' = (trace w ++ l)%list
    /\ forall before e after,
      l = (before ++ e :: after)%list ->
      (starts_export e = true ->
       exists n, (n > 0)%Z /\ In (Log (Deck_complete n)) before)
      /\ (download_event e = true -> In (Log Export_complete) before).
Proof.
  intro H.
  destruct (main_cases E cfg fuel w w' r H)
    as [(_ & deckId & l & Ht & Hl)
       | (deck & cd & w1 & w2 & Hp & Hc & Hd & Ha)].
  - exists l. split; [exact Ht|]. intros before e after Heq.
    assert (H1 : forallb not_export_start l = true /\ forallb not_download l = true).
    { rewrite !forallb_forall in *. split; intros ev Hev;
        apply (early_event_harmless deckId ev (Hl ev Hev)). }
    split; intro He; exfalso.
    + apply (not_in_prefix starts_export l before after e); tauto.
    + apply (not_in_prefix download_event l before after e); tauto.
  - destruct (createDeck_emits E _ _ (Data.id deck) w _ _ Hc) as (l1 & Ht1 & Hp1).
    destruct (pollDeckStatus_returned E cfg fuel _ w1 w2 cd Hd)
      as (Hready & l2 & Ht2 & Hp2).
    destruct (after_deck_order fuel deck cd w2 w' r Ha) as (l3 & Ht3 & Hord).
    set (complete := Log (Deck_complete (default0 (Data.slides_count cd)))) in *.
    set (pre := (l1 ++ l2 ++ [complete])%list).
    assert (Hpre : forallb (deck_stage_event (Data.id deck)) pre = true).
    { unfold pre. rewrite !forallb_app, Hp1, Hp2. reflexivity. }
    assert (Hpre' : forallb not_export_start pre = true
                    /\ forallb not_download pre = true).
    { rewrite !forallb_forall in *. split; intros ev Hev;
        apply (early_event_harmless (Data.id deck) ev);
        specialize (Hpre ev Hev);
        destruct ev as [m|?|?|? ? ?|?|?|?|?|?]; cbn in *; auto; discriminate. }
    exists (pre ++ l3)%list. split.
    { rewrite Ht3, Ht2, Ht1. unfold pre. rewrite <- !app_assoc. reflexivity. }
    intros before e after Heq. symmetry in Heq. split; intro He.
    + destruct (after_prefix starts_export pre l3 before after e) as (mid & Hmid);
        [tauto | exact He | exact Heq |].
      exists (default0 (Data.slides_count cd)). split.
      * apply deck_ready_true in Hready. tauto.
      * subst before. apply in_or_app. left. unfold pre.
        apply in_or_app. right. apply in_or_app. right. left. reflexivity.
    + destruct (after_prefix download_event pre l3 before after e) as (mid & Hmid);
        [tauto | exact He | exact Heq |].
      subst before. rewrite <- app_assoc in Heq. apply app_inv_head in Heq.
      apply in_or_app. right. apply (Hord mid e after); [symmetry; exact Heq | exact He].
Qed.

(** X11.  In every run of the program, whatever the server does: the
    export is started only after the deck poll has logged
    "Deck complete: <n> slides" for some [n > 0], and nothing of the
    download (directory, file, [GET]) happens before the export poll has
    logged "Export complete!". *)
Theorem stages_in_order (fuel : nat) (w w' : world) (r : result unit)
    (before after : list event) (e : event) :
  program E cfg fuel w = (r, w') ->
  trace w' = (trace w ++ before ++ e :: after)%list ->
  (starts_export e = true ->
   exists n, (n > 0)%Z /\ In (Log (Deck_complete n)) before)
  /\ (download_event e = true -> In (Log Export_complete) before).
Proof.
  intros H Ht. rewrite program_of_main in H.
  destruct (main E cfg fuel w) as [rm wm] eqn:Hm.
  destruct (main_in_order fuel w wm rm Hm) as (l & Hl & Hord).
  assert (Hsame : wm = w' -> (starts_export e = true ->
             exists n, (n > 0)%Z /\ In (Log (Deck_complete n)) before)
            /\ (download_event e = true -> In (Log Export_complete) before)).
  { intro Hw. subst wm. rewrite Hl in Ht. apply app_inv_head in Ht.
    apply (Hord before e after Ht). }
  destruct rm as [u|c|x| |]; try (inversion H; subst; apply Hsame; reflexivity).
  inversion H; subst. clear H Hsame.
  cbn [trace add_event] in Ht. rewrite Hl, <- app_assoc in Ht.
  apply app_inv_head in Ht. symmetry in Ht.
  apply split_snoc in Ht as [(_ & He & _) | (after' & _ & Hl')].
  - subst e. split; discriminate.
  - apply (Hord before e after' Hl').
Qed.

End Order.

(** ** A run that succeeds *)

Section Success.

Variable E : env.
Variable cfg : config.

Lemma emit_Ret_inv (e : event) (w w' : world) (u : unit) :
  emit e w = (Ret u, w') -> w' = add_event e w.
Proof. intro H. inversion H. reflexivity. Qed.

(** A run of [main] that reaches the end has been through the deck
    stage and then through [after_deck]. *)
Lemma main_resolved (fuel : nat) (w w' : world) :
  main E cfg fuel w = (Ret tt, w') ->
  exists deck completedDeck w1 w2,
    createDeck E (prompt_text E cfg) (deckName cfg) w = (Ret deck, w1)
    /\ pollDeckStatus E cfg fuel (Data.id deck) w1 = (Ret completedDeck, w2)
    /\ after_deck E cfg fuel deck completedDeck w2 = (Ret tt, w').
Proof.
  intro Hm.
  destruct (main_cases E cfg fuel w w' _ Hm)
    as [(Hne & _) | (deck & cd & w1 & w2 & Hp & Hc & Hd & Ha)];
    [exfalso; apply Hne; reflexivity|].
  exists deck, cd, w1, w2. auto.
Qed.

Lemma program_resolved (fuel : nat) (w w' : world) :
  program E cfg fuel w = (Ret tt, w') -> main E cfg fuel w = (Ret tt, w').
Proof.
  rewrite program_of_main.
  destruct (main E cfg fuel w) as [[[]|c|x| |] wm]; intro H;
    try discriminate; exact H.
Qed.

(** [finish_export], when it returns: what it has checked, fetched,
    written and printed. *)
Lemma finish_export_returned (fuel : nat) (deck cd exp : Data.t) (w w' : world) :
  finish_export E cfg fuel deck cd exp w = (Ret tt, w') ->
  exists outName body w3,
    let outPath := path_resolve E (outDir cfg) (outName ++ "." ++ ext_of_format cfg) in
    present (Data.download_url exp)
    /\ (if truthy (filename cfg) then filename cfg = Some outName
        else exists i, Data.id deck = Some i /\ outName = "deck-" ++ slice E i 0 8)
    /\ download E fuel (show (Data.download_url exp)) outPath
         (add_event (Log (Downloading (ext_of_format cfg)))
            (add_event (MkdirSync (path_dirname E outPath)) w))
       = (Ret tt, w3)
    /\ (exists n final location,
           follows E n (show (Data.download_url exp)) final
           /\ fetch E final = Response 200 location body)
    /\ files w' outPath = Some body
    /\ w' = add_event (ConsoleLog (JSON_line
                         (export_summary deck cd (ext_of_format cfg) outPath)))
              (add_event (ConsoleLog (FILE_line outPath))
                 (add_event (Log (Saved outPath (Z.of_nat (String.length body)))) w3)).
Proof.
  unfold finish_export.
  destruct (truthy (Data.download_url exp)) eqn:Hurl; cbn [negb]; [|discriminate].
  fold (ext_of_format cfg).
  intro H.
  apply bind_Ret_inv in H as (outName & wa & Hname & H).
  apply bind_Ret_inv in H as (u1 & wb & Hmk & H).
  apply bind_Ret_inv in H as (u2 & wc & Hlog & H).
  apply bind_Ret_inv in H as (u3 & wd & Hdl & H).
  apply bind_Ret_inv in H as (size & we & Hstat & H).
  apply bind_Ret_inv in H as (u4 & wf & Hsaved & H).
  apply bind_Ret_inv in H as (u5 & wg & Hfile & H).
  apply bind_Ret_inv in H as (u6 & wh & Hjson & H).
  inversion H; subst w'. clear H.
  apply emit_Ret_inv in Hmk, Hlog, Hsaved, Hfile, Hjson. subst wh wg wf wc wb.
  destruct u3.
  assert (Hwa : wa = w).
  { destruct (truthy (filename cfg)); [inversion Hname; reflexivity|].
    destruct (Data.id deck); [inversion Hname; reflexivity | discriminate]. }
  subst wa.
  pose proof Hdl as Hres.
  apply download_resolved in Hres
    as (n & final & location & body & Hfo & Hfetch & Hbody).
  unfold statSync_size in Hstat. rewrite Hbody in Hstat.
  inversion Hstat; subst size we. clear Hstat.
  exists outName, body, wd.
  split; [apply truthy_present; exact Hurl|].
  split.
  { destruct (truthy (filename cfg)) eqn:Hf.
    - inversion Hname; subst. apply truthy_show. exact Hf.
    - destruct (Data.id deck) as [i|]; [|discriminate].
      inversion Hname; subst. exists i. auto. }
  split; [exact Hdl|].
  split; [exists n, final, location; auto|].
  split; [exact Hbody | reflexivity].
Qed.

(** X12.  When the program, run without [--no-export], runs to the end
    of [main], its four API stages have returned one after the other -
    [createDeck] the deck, [pollDeckStatus] the completed deck,
    [startExport] the export job, [pollExportStatus] the completed export -
    and: the completed export has a download URL; [download] was called on
    that URL and on the path [outDir] resolved with
    [<filename, or deck-<id.slice(0, 8)> of the created deck>.<pptx for
    pptx, pdf otherwise>], and its promise resolved; a chain of redirects
    from the URL ended in a 200, and the body of that 200 is the content
    of the file at that path.  The last three things the program did were
    to log "Saved" with the size of the file, to print [FILE: <path>] and
    to print the JSON summary of the created and the completed deck with
    that path. *)
Theorem export_success_saves_file (fuel : nat) (w w' : world) :
  noExport cfg = false ->
  program E cfg fuel w = (Ret tt, w') ->
  exists deck completedDeck exportJob completedExport w1 w2 w3 w4 w5 outName body,
    let outPath := path_resolve E (outDir cfg) (outName ++ "." ++ ext_of_format cfg) in
    let url := show (Data.download_url completedExport) in
    createDeck E (prompt_text E cfg) (deckName cfg) w = (Ret deck, w1)
    /\ pollDeckStatus E cfg fuel (Data.id deck) w1 = (Ret completedDeck, w2)
    /\ startExport E (Data.id deck) (format cfg) (upscale cfg) w2 = (Ret exportJob, w3)
    /\ pollExportStatus E cfg fuel (Data.id deck) (Data.export_id exportJob) w3
       = (Ret completedExport, w4)
    /\ present (Data.download_url completedExport)
    /\ (if truthy (filename cfg) then filename cfg = Some outName
        else exists i, Data.id deck = Some i /\ outName = "deck-" ++ slice E i 0 8)
    /\ download E fuel url outPath
         (add_event (Log (Downloading (ext_of_format cfg)))
            (add_event (MkdirSync (path_dirname E outPath)) w4))
       = (Ret tt, w5)
    /\ (exists n final location,
           follows E n url final /\ fetch E final = Response 200 location body)
    /\ files w' outPath = Some body
    /\ w' = add_event (ConsoleLog (JSON_line
                         (export_summary deck completedDeck (ext_of_format cfg) outPath)))
              (add_event (ConsoleLog (FILE_line outPath))
                 (add_event (Log (Saved outPath (Z.of_nat (String.length body)))) w5)).
Proof.
  intros Hexp H. apply program_resolved in H.
  destruct (main_resolved fuel w w' H) as (deck & cd & w1 & w2 & Hc & Hd & Ha).
  unfold after_deck in Ha. rewrite Hexp in Ha. unfold export_stage in Ha.
  apply bind_Ret_inv in Ha as (job & w3 & Hs & Ha).
  apply bind_Ret_inv in Ha as (exp & w4 & Hpe & Ha).
  destruct (finish_export_returned fuel deck cd exp w4 w' Ha)
    as (outName & body & w5 & Hurl & Hname & Hdl & Hchain & Hfile & Hw).
  exists deck, cd, job, exp, w1, w2, w3, w4, w5, outName, body.
  cbv zeta. repeat split; assumption.
Qed.

(** ** Exit codes *)










Lemma stdout_untouched_of_emits {A} (m : M A) (w w' : world) (r : result A) :
  emits not_stdout m -> m w = (r, w') -> stdout_untouched w w'.
Proof. intros Hm H. exact (Hm w r w' H). Qed.












End Success.

(** ** The summary *)

Section Summary.

Variable E : env.
Variable cfg : config.

Lemma ready_deck_has_slides (deck : Data.t) :
  deck_ready deck = true ->
  exists n, Data.slides_count deck = Some n /\ (n > 0)%Z.
Proof.
  intro H. apply deck_ready_true in H as (_ & Hc & _).
  destruct (Data.slides_count deck) as [n|]; cbn in Hc; [|lia].
  exists n. auto.
Qed.

(** X14.  When the program runs to the end of [main], [createDeck] has
    returned a deck and [pollDeckStatus], polled on the id of that deck, a
    completed deck whose [slides_count] is a positive number; the JSON
    line printed last has that number in its [slides] field and the view
    URL of the created deck in its [url] field; and it has the [file] and
    [format] fields exactly when the run was not [--no-export]. *)
Theorem summary_fields (fuel : nat) (w w' : world) :
  program E cfg fuel w = (Ret tt, w') ->
  exists deck completedDeck w1 w2 n j w3,
    createDeck E (prompt_text E cfg) (deckName cfg) w = (Ret deck, w1)
    /\ pollDeckStatus E cfg fuel (Data.id deck) w1 = (Ret completedDeck, w2)
    /\ Data.slides_count completedDeck = Some n
    /\ (n > 0)%Z
    /\ w' = add_event (ConsoleLog (JSON_line j)) w3
    /\ In ("slides", JNum n) j
    /\ In ("url", JStr (view_url deck)) j
    /\ has_field "file" j = negb (noExport cfg)
    /\ has_field "format" j = negb (noExport cfg).
Proof.
  intro H. apply (program_resolved E cfg) in H.
  destruct (main_resolved E cfg fuel w w' H) as (deck & cd & w1 & w2 & Hc & Hd & Ha).
  destruct (pollDeckStatus_returned E cfg fuel _ w1 w2 cd Hd) as (Hready & _).
  destruct (ready_deck_has_slides cd Hready) as (n & Hn & Hpos).
  exists deck, cd, w1, w2, n.
  unfold after_deck in Ha. destruct (noExport cfg).
  - inversion Ha; subst w'. clear Ha.
    exists (deck_summary deck cd), w2.
    repeat (split; [assumption|]). split; [reflexivity|].
    unfold deck_summary. rewrite Hn.
    split; [apply in_or_app; right; apply in_or_app; right; left; reflexivity|].
    split; [apply in_or_app; right; apply in_or_app; right; right; left; reflexivity|].
    destruct (Data.id deck), (Data.name deck); split; reflexivity.
  - unfold export_stage in Ha.
    apply bind_Ret_inv in Ha as (job & w3 & Hs & Ha).
    apply bind_Ret_inv in Ha as (exp & w4 & Hpe & Ha).
    destruct (finish_export_returned E cfg fuel deck cd exp w4 w' Ha)
      as (outName & body & w5 & _ & _ & _ & _ & _ & Hw).
    eexists. eexists.
    repeat (split; [assumption|]). split; [exact Hw|].
    unfold export_summary. rewrite Hn.
    split; [apply in_or_app; right; apply in_or_app; right; left; reflexivity|].
    split; [apply in_or_app; right; apply in_or_app; right; right;
            right; right; left; reflexivity|].
    destruct (Data.id deck), (Data.name deck); split; reflexivity.
Qed.

End Summary.

(** ** How late a time-out can be *)


Section Overrun.

Context {S : Type}.
Variable deadline : Q.
Variable body : S -> M (step Data.t S).
Variable timed_out : msg.
Variable longest : Z.

Hypothesis pass_takes :
  forall s w s' w', body s w = (Ret (Continue s'), w') ->
                    (clock w' <= clock w + longest)%Z.
Hypothesis exit_logs :
  forall s w c w', body s w = (Exit c, w') ->
                   exists m w0, w' = add_event (Log m) w0 /\ m <> timed_out.





End Overrun.

Section OverrunPollers.

Variable E : env.
Variable cfg : config.
Variables longest_request longest_timer : Z.
Hypothesis requests_take : forall k, (request_ms E k <= longest_request)%Z.
Hypothesis timers_take : forall k, (timer_ms E k <= longest_timer)%Z.






End OverrunPollers.

(** ** The further properties on concrete runs *)


Lemma stages_in_order_witness :
  let start := Request "POST" "/v1/decks/d3adb33f-0001/export"
                 (Some (ExportPayload "pdf" false)) in
  let before :=
    [Log Creating_deck;
     Request "POST" "/v1/decks" (Some (DeckPayload "Quarterly update" None));
     Log (Deck_created Demo.id1 (Some "Quarterly") (Some "generating"));
     Log Waiting_for_deck_generation;
     Request "GET" "/v1/decks/d3adb33f-0001" None;
     Log (Deck_complete 5);
     Log (Starting_export "pdf")] in
  (starts_export start = true ->
   exists n, (n > 0)%Z /\ In (Log (Deck_complete n)) before)
  /\ (download_event start = true -> In (Log Export_complete) before).
Proof.
  intros start before.
  pose (E := Demo.mkenv [Demo.ok (Demo.deck "generating" 0 0);
                         Demo.ok (Demo.deck "complete" 5 5);
                         Demo.unavailable] Demo.no_web).
  refine (stages_in_order E Demo.cfg 100 Demo.w0
            (snd (program E Demo.cfg 100 Demo.w0)) (Exit 1) before
            [Log (Error_starting_export 503 (Some Data.empty))] start _ _).
  - vm_compute. reflexivity.
  - vm_compute. reflexivity.
Defined.

Lemma export_success_saves_file_witness :
  let E := Demo.mkenv
             [Demo.ok (Demo.deck "generating" 0 0);
              Demo.ok (Demo.deck "complete" 5 5);
              Demo.ok (Demo.export "pending" 0 None);
              Demo.ok (Demo.export "processing" 100
                         (Some "https://api.example/dl/1"))]
             Demo.web in
  let cfg := Demo.cfg in
  let w := Demo.w0 in
  let w' := snd (program E cfg 100 w) in
  exists deck completedDeck exportJob completedExport w1 w2 w3 w4 w5 outName body,
    let outPath := path_resolve E (outDir cfg) (outName ++ "." ++ ext_of_format cfg) in
    let url := show (Data.download_url completedExport) in
    createDeck E (prompt_text E cfg) (deckName cfg) w = (Ret deck, w1)
    /\ pollDeckStatus E cfg 100 (Data.id deck) w1 = (Ret completedDeck, w2)
    /\ startExport E (Data.id deck) (format cfg) (upscale cfg) w2 = (Ret exportJob, w3)
    /\ pollExportStatus E cfg 100 (Data.id deck) (Data.export_id exportJob) w3
       = (Ret completedExport, w4)
    /\ present (Data.download_url completedExport)
    /\ (if truthy (filename cfg) then filename cfg = Some outName
        else exists i, Data.id deck = Some i /\ outName = "deck-" ++ slice E i 0 8)
    /\ download E 100 url outPath
         (add_event (Log (Downloading (ext_of_format cfg)))
            (add_event (MkdirSync (path_dirname E outPath)) w4))
       = (Ret tt, w5)
    /\ (exists n final location,
           follows E n url final /\ fetch E final = Response 200 location body)
    /\ files w' outPath = Some body
    /\ w' = add_event (ConsoleLog (JSON_line
                         (export_summary deck completedDeck (ext_of_format cfg) outPath)))
              (add_event (ConsoleLog (FILE_line outPath))
                 (add_event (Log (Saved outPath (Z.of_nat (String.length body)))) w5)).
Proof.
  intros E cfg w w'.
  refine (export_success_saves_file E cfg 100 w w' _ _).
  - reflexivity.
  - vm_compute. reflexivity.
Defined.

Lemma summary_fields_witness :
  let E := Demo.mkenv
             [Demo.ok (Demo.deck "generating" 0 0);
              Demo.ok (Demo.deck "complete" 5 5)]
             Demo.no_web in
  let cfg := Demo.cfg_no_export in
  let w := Demo.w0 in
  exists deck completedDeck w1 w2 n j w3,
    createDeck E (prompt_text E cfg) (deckName cfg) w = (Ret deck, w1)
    /\ pollDeckStatus E cfg 100 (Data.id deck) w1 = (Ret completedDeck, w2)
    /\ Data.slides_count completedDeck = Some n
    /\ (n > 0)%Z
    /\ snd (program E cfg 100 w) = add_event (ConsoleLog (JSON_line j)) w3
    /\ In ("slides", JNum n) j
    /\ In ("url", JStr (view_url deck)) j
    /\ has_field "file" j = negb (noExport cfg)
    /\ has_field "format" j = negb (noExport cfg).
Proof.
  intros E cfg w.
  refine (summary_fields E cfg 100 w (snd (program E cfg 100 w)) _).
  vm_compute. reflexivity.
Defined.

Lemma download_touches_only_dest_witness :
  let E := Demo.mkenv [] Demo.web in
  let w := set_file "./notes.txt" (Some "agenda") Demo.w0 in
  files (snd (download E 5 "https://api.example/dl/1" "./deck.pdf" w)) "./notes.txt"
  = files w "./notes.txt".
Proof.
  intros E w.
  refine (download_touches_only_dest E 5 "https://api.example/dl/1"
            "./deck.pdf" w "./notes.txt" _).
  discriminate.
Defined.
